(** * Collection service: a shallow embedding of [server/app/routers/collections.py]

    The router exposes ten handlers over three tables ([Collection], [Record],
    [Share]).  Every handler receives a SQLAlchemy session [db] and (all but
    the share endpoint) the authenticated [current_user]; it issues filtered
    queries, possibly writes, commits, and either returns a value or raises
    [HTTPException].

    The embedding keeps that shape: a table is the list of its rows in store
    order, a session is the pair of the committed database and the
    session's working copy, and a handler is a computation in a small
    state-and-exception monad over sessions. *)

From Stdlib Require Import String List Bool ZArith.
Import ListNotations.
Open Scope string_scope.
Open Scope list_scope.

(** ** Rows of the three tables

    The model classes are declared in [models.py]; the rows here carry the
    columns the router reads or writes, with the types the router gives them
    ([collection_id: str], [Share.collection_id.isnot(None)],
    [Share.is_active == True]). *)

Definition Id := string.
Definition Timestamp := Z.

Module Collection.
Record t := mk {
  id : Id;
  user_id : Id;
  name : string;
  description : option string;
  created_at : Timestamp
}.

Arguments mk id user_id name description created_at%_Z.

Definition set_name (v : string) (c : t) : t :=
  mk (id c) (user_id c) v (description c) (created_at c).

Definition set_description (v : option string) (c : t) : t :=
  mk (id c) (user_id c) (name c) v (created_at c).

Definition set_user_id (v : Id) (c : t) : t :=
  mk (id c) v (name c) (description c) (created_at c).
End Collection.

Module Record.
Record t := mk {
  id : Id;
  user_id : Id;
  filename : string;
  content : string;
  collection_id : option Id;
  created_at : Timestamp
}.

Arguments mk id user_id filename content collection_id created_at%_Z.

Definition set_collection_id (v : option Id) (r : t) : t :=
  mk (id r) (user_id r) (filename r) (content r) v (created_at r).

Definition set_user_id (v : Id) (r : t) : t :=
  mk (id r) v (filename r) (content r) (collection_id r) (created_at r).
End Record.

Module Share.
Record t := mk {
  share_token : string;
  is_active : bool;
  collection_id : option Id
}.
End Share.

(** ** Request schemas ([CollectionCreate], [CollectionUpdate]) *)

Module CollectionCreate.
Record t := mk { name : string; description : option string }.
End CollectionCreate.

Module CollectionUpdate.
Record t := mk { name : option string; description : option string }.
End CollectionUpdate.

(** ** The persistence store and the session *)

Record Database := mkDatabase {
  collections : list Collection.t;
  records : list Record.t;
  shares : list Share.t
}.

(** A session sees its own pending writes ([working]); [db.commit()] makes
    them durable ([committed]). *)
Record Session := mkSession {
  committed : Database;
  working : Database
}.

Definition open_session (d : Database) : Session := mkSession d d.

(** ** Exceptions and responses *)

Record HTTPException := mkHTTPException {
  status_code : Z;
  detail : string
}.

(** Python values as the handlers build them in dict literals. *)
#[warnings="-register-all"]
Inductive value :=
| VNone
| VStr (s : string)
| VTime (t : Timestamp)
| VList (l : list value)
| VDict (d : list (string * value)).

Arguments VTime t%_Z.

Definition dict_get (k : string) (v : value) : option value :=
  match v with
  | VDict d => option_map snd (find (fun kv => fst kv =? k) d)
  | _ => None
  end.

Definition opt_str (o : option string) : value :=
  match o with
  | Some s => VStr s
  | None => VNone
  end.

(** ** The handler monad: session state plus [raise] *)

Inductive outcome (A : Type) :=
| Returned (a : A)
| Raised (e : HTTPException).

Arguments Returned {A} a.
Arguments Raised {A} e.

Definition M (A : Type) := Session -> Session * outcome A.

Definition ret {A} (a : A) : M A := fun s => (s, Returned a).

Definition bind {A B} (m : M A) (k : A -> M B) : M B :=
  fun s =>
    match m s with
    | (s', Returned a) => k a s'
    | (s', Raised e) => (s', Raised e)
    end.

Definition raise {A} (e : HTTPException) : M A := fun s => (s, Raised e).

Declare Scope handler_scope.
Delimit Scope handler_scope with handler.
Notation "x <- m ;; k" := (bind m (fun x => k))
  (at level 61, m at next level, right associativity) : handler_scope.
Notation "m ;; k" := (bind m (fun _ => k))
  (at level 61, right associativity) : handler_scope.
Open Scope handler_scope.

(** *** Session primitives *)

(** [db.query(Collection).filter(p).first()] *)
Definition query_collection_first (p : Collection.t -> bool) : M (option Collection.t) :=
  fun s => (s, Returned (find p (collections (working s)))).

(** [db.query(Collection).filter(p).all()] *)
Definition query_collection_all (p : Collection.t -> bool) : M (list Collection.t) :=
  fun s => (s, Returned (filter p (collections (working s)))).

Definition query_record_first (p : Record.t -> bool) : M (option Record.t) :=
  fun s => (s, Returned (find p (records (working s)))).

Definition query_record_all (p : Record.t -> bool) : M (list Record.t) :=
  fun s => (s, Returned (filter p (records (working s)))).

Definition query_share_first (p : Share.t -> bool) : M (option Share.t) :=
  fun s => (s, Returned (find p (shares (working s)))).

Definition with_collections (f : list Collection.t -> list Collection.t) (d : Database) : Database :=
  mkDatabase (f (collections d)) (records d) (shares d).

Definition with_records (f : list Record.t -> list Record.t) (d : Database) : Database :=
  mkDatabase (collections d) (f (records d)) (shares d).

Definition write (f : Database -> Database) : M unit :=
  fun s => (mkSession (committed s) (f (working s)), Returned tt).

(** [UPDATE t SET ... WHERE p]: every row selected by [p] is rewritten by [f],
    in place. *)
Definition update_where {R} (p : R -> bool) (f : R -> R) (rows : list R) : list R :=
  map (fun r => if p r then f r else r) rows.

(** [DELETE FROM t WHERE p] *)
Definition delete_where {R} (p : R -> bool) (rows : list R) : list R :=
  filter (fun r => negb (p r)) rows.

(** [db.add(obj)]: the row is appended to its table. *)
Definition add_collection (c : Collection.t) : M unit :=
  write (with_collections (fun rows => rows ++ [c])).

(** Attribute assignments on a loaded [Collection] object are flushed as an
    [UPDATE] of the row with the object's primary key. *)
Definition flush_collection (pk : Id) (f : Collection.t -> Collection.t) : M unit :=
  write (with_collections (update_where (fun c => Collection.id c =? pk) f)).

Definition flush_record (pk : Id) (f : Record.t -> Record.t) : M unit :=
  write (with_records (update_where (fun r => Record.id r =? pk) f)).

(** [db.query(Record).filter(p).update({...})] *)
Definition bulk_update_records (p : Record.t -> bool) (f : Record.t -> Record.t) : M unit :=
  write (with_records (update_where p f)).

(** [db.delete(obj)]: the row with the object's primary key is deleted. *)
Definition delete_collection_row (pk : Id) : M unit :=
  write (with_collections (delete_where (fun c => Collection.id c =? pk))).

(** [db.commit()] *)
Definition commit : M unit :=
  fun s => (mkSession (working s) (working s), Returned tt).

(** [db.refresh(obj)]: the object's attributes are reloaded from its row; an
    object whose row is gone keeps the attributes it has. *)
Definition refresh (obj : Collection.t) : M Collection.t :=
  fun s =>
    match find (fun c => Collection.id c =? Collection.id obj) (collections (working s)) with
    | Some row => (s, Returned row)
    | None => (s, Returned obj)
    end.

(** ** The handlers

    [current_user] stands for [current_user.id], the only attribute of the
    authenticated user a handler reads. *)

Definition not_found {A} (msg : string) : M A :=
  raise (mkHTTPException 404 msg).

(** [Collection.id == collection_id, Collection.user_id == current_user.id] *)
Definition owned_collection (collection_id current_user : Id) (c : Collection.t) : bool :=
  (Collection.id c =? collection_id) && (Collection.user_id c =? current_user).

(** [Record.id == record_id, Record.user_id == current_user.id] *)
Definition owned_record (record_id current_user : Id) (r : Record.t) : bool :=
  (Record.id r =? record_id) && (Record.user_id r =? current_user).

(** [Record.collection_id == collection_id]; a null reference equals no id. *)
Definition in_collection (collection_id : Id) (r : Record.t) : bool :=
  match Record.collection_id r with
  | Some c => c =? collection_id
  | None => false
  end.

(** [Share.share_token == share_token, Share.is_active == True,
    Share.collection_id.isnot(None)] *)
Definition live_share (share_token : string) (sh : Share.t) : bool :=
  (Share.share_token sh =? share_token)
  && Share.is_active sh
  && match Share.collection_id sh with Some _ => true | None => false end.

(** The primary key and the creation time of a new row are column defaults of
    the model; the handler takes them as [new_id] and [now].  An insert with
    a primary key already in the table is outside this model: statements
    about creation assume [new_id] fresh. *)
Definition create_collection (new_id : Id) (now : Timestamp)
    (collection : CollectionCreate.t) (current_user : Id) : M Collection.t :=
  let db_collection :=
    Collection.mk new_id current_user
      (CollectionCreate.name collection)
      (CollectionCreate.description collection) now in
  add_collection db_collection ;;
  commit ;;
  refresh db_collection.

Definition get_all_collections (current_user : Id) : M (list Collection.t) :=
  query_collection_all (fun c => Collection.user_id c =? current_user).

Definition get_collection (collection_id current_user : Id) : M Collection.t :=
  collection <- query_collection_first (owned_collection collection_id current_user) ;;
  match collection with
  | None => not_found "Collection not found"
  | Some collection => ret collection
  end.

Definition update_collection (collection_id : Id) (collection : CollectionCreate.t)
    (current_user : Id) : M Collection.t :=
  db_collection <- query_collection_first (owned_collection collection_id current_user) ;;
  match db_collection with
  | None => not_found "Collection not found"
  | Some db_collection =>
      flush_collection (Collection.id db_collection)
        (fun c => Collection.set_description (CollectionCreate.description collection)
                    (Collection.set_name (CollectionCreate.name collection) c)) ;;
      commit ;;
      refresh db_collection
  end.

Definition update_collection_partial (collection_id : Id)
    (collection_update : CollectionUpdate.t) (current_user : Id) : M Collection.t :=
  db_collection <- query_collection_first (owned_collection collection_id current_user) ;;
  match db_collection with
  | None => not_found "Collection not found"
  | Some db_collection =>
      match CollectionUpdate.name collection_update with
      | Some n => flush_collection (Collection.id db_collection) (Collection.set_name n)
      | None => ret tt
      end ;;
      match CollectionUpdate.description collection_update with
      | Some d =>
          flush_collection (Collection.id db_collection) (Collection.set_description (Some d))
      | None => ret tt
      end ;;
      commit ;;
      refresh db_collection
  end.

Definition get_records_from_collection (collection_id current_user : Id) : M (list Record.t) :=
  collection <- query_collection_first (owned_collection collection_id current_user) ;;
  match collection with
  | None => not_found "Collection not found"
  | Some _ => query_record_all (in_collection collection_id)
  end.

Definition message (msg : string) : value := VDict [("message", VStr msg)].

Definition add_record_to_collection (collection_id record_id current_user : Id) : M value :=
  collection <- query_collection_first (owned_collection collection_id current_user) ;;
  match collection with
  | None => not_found "Collection not found"
  | Some _ =>
      record <- query_record_first (owned_record record_id current_user) ;;
      match record with
      | None => not_found "Record not found"
      | Some record =>
          flush_record (Record.id record) (Record.set_collection_id (Some collection_id)) ;;
          commit ;;
          ret (message "Record added to collection successfully")
      end
  end.

Definition remove_record_from_collection (collection_id record_id current_user : Id) : M value :=
  collection <- query_collection_first (owned_collection collection_id current_user) ;;
  match collection with
  | None => not_found "Collection not found"
  | Some _ =>
      record <- query_record_first
                  (fun r => owned_record record_id current_user r && in_collection collection_id r) ;;
      match record with
      | None => not_found "Record not found in this collection"
      | Some record =>
          flush_record (Record.id record) (Record.set_collection_id None) ;;
          commit ;;
          ret (message "Record removed from collection successfully")
      end
  end.

Definition delete_collection (collection_id current_user : Id) : M value :=
  collection <- query_collection_first (owned_collection collection_id current_user) ;;
  match collection with
  | None => not_found "Collection not found"
  | Some collection =>
      bulk_update_records (in_collection collection_id) (Record.set_collection_id None) ;;
      delete_collection_row (Collection.id collection) ;;
      commit ;;
      ret (message "Collection deleted successfully")
  end.

Definition collection_summary (collection : Collection.t) : value :=
  VDict [("id", VStr (Collection.id collection));
         ("name", VStr (Collection.name collection));
         ("description", opt_str (Collection.description collection));
         ("created_at", VTime (Collection.created_at collection))].

Definition record_summary (record : Record.t) : value :=
  VDict [("id", VStr (Record.id record));
         ("filename", VStr (Record.filename record));
         ("content", VStr (Record.content record));
         ("created_at", VTime (Record.created_at record))].

Definition share_target (sh : Share.t) (c : Collection.t) : bool :=
  match Share.collection_id sh with
  | Some cid => Collection.id c =? cid
  | None => false
  end.

Definition share_member (sh : Share.t) (r : Record.t) : bool :=
  match Share.collection_id sh with
  | Some cid => in_collection cid r
  | None => false
  end.

Definition access_shared_collection (share_token : string) : M value :=
  share <- query_share_first (live_share share_token) ;;
  match share with
  | None => not_found "Invalid or expired share link"
  | Some share =>
      collection <- query_collection_first (share_target share) ;;
      match collection with
      | None => not_found "Collection not found"
      | Some collection =>
          records <- query_record_all (share_member share) ;;
          ret (VDict [("collection", collection_summary collection);
                      ("records", VList (map record_summary records))])
      end
  end.

(** ** The router: one request, one session *)

Inductive Request :=
| CreateReq (new_id : Id) (now : Timestamp) (body : CollectionCreate.t) (current_user : Id)
| ListAllReq (current_user : Id)
| GetReq (collection_id current_user : Id)
| ReplaceReq (collection_id : Id) (body : CollectionCreate.t) (current_user : Id)
| PatchReq (collection_id : Id) (body : CollectionUpdate.t) (current_user : Id)
| ListRecordsReq (collection_id current_user : Id)
| LinkReq (collection_id record_id current_user : Id)
| UnlinkReq (collection_id record_id current_user : Id)
| DeleteReq (collection_id current_user : Id)
| AccessSharedReq (share_token : string).

Inductive Response :=
| RCollection (c : Collection.t)
| RCollections (l : list Collection.t)
| RRecords (l : list Record.t)
| RBody (v : value).

Definition fmap {A B} (f : A -> B) (m : M A) : M B :=
  a <- m ;; ret (f a).

Definition dispatch (req : Request) : M Response :=
  match req with
  | CreateReq new_id now body u => fmap RCollection (create_collection new_id now body u)
  | ListAllReq u => fmap RCollections (get_all_collections u)
  | GetReq cid u => fmap RCollection (get_collection cid u)
  | ReplaceReq cid body u => fmap RCollection (update_collection cid body u)
  | PatchReq cid body u => fmap RCollection (update_collection_partial cid body u)
  | ListRecordsReq cid u => fmap RRecords (get_records_from_collection cid u)
  | LinkReq cid rid u => fmap RBody (add_record_to_collection cid rid u)
  | UnlinkReq cid rid u => fmap RBody (remove_record_from_collection cid rid u)
  | DeleteReq cid u => fmap RBody (delete_collection cid u)
  | AccessSharedReq tok => fmap RBody (access_shared_collection tok)
  end.

(** A request runs a handler in a session opened on the store; what the
    store holds afterwards is what the session committed. *)
Definition run {A} (h : M A) (d : Database) : Database * outcome A :=
  let (s, o) := h (open_session d) in (committed s, o).

Definition serve (req : Request) (d : Database) : Database * outcome Response :=
  run (dispatch req) d.

(** ** Store invariant: primary keys *)

Definition pk_unique (d : Database) : Prop :=
  NoDup (map Collection.id (collections d)) /\ NoDup (map Record.id (records d)).

Definition is_not_found {A} (o : outcome A) : Prop :=
  exists msg, o = Raised (mkHTTPException 404 msg).

(** The four [HTTPException]s the handlers raise. *)

Definition collection_missing : HTTPException := mkHTTPException 404 "Collection not found".
Definition record_missing : HTTPException := mkHTTPException 404 "Record not found".
Definition record_not_member : HTTPException :=
  mkHTTPException 404 "Record not found in this collection".
Definition share_invalid : HTTPException :=
  mkHTTPException 404 "Invalid or expired share link".

(** ** The handlers as functions of the store

    What a request that runs [add_record_to_collection],
    [remove_record_from_collection] or [access_shared_collection] in a session
    of its own leaves in the store and answers; the handlers are shown to
    compute exactly these ([add_record_run], [remove_record_run],
    [access_shared_run]). *)

Definition linked (cid rid u : Id) (d : Database) : Database * outcome value :=
  match find (owned_collection cid u) (collections d) with
  | None => (d, Raised collection_missing)
  | Some _ =>
      match find (owned_record rid u) (records d) with
      | None => (d, Raised record_missing)
      | Some _ =>
          (with_records
             (update_where (fun x => Record.id x =? rid)
                (Record.set_collection_id (Some cid))) d,
           Returned (message "Record added to collection successfully"))
      end
  end.

(** The filter of the record lookup in [remove_record_from_collection]. *)
Definition member_record (cid rid u : Id) (r : Record.t) : bool :=
  owned_record rid u r && in_collection cid r.

Definition unlinked (cid rid u : Id) (d : Database) : Database * outcome value :=
  match find (owned_collection cid u) (collections d) with
  | None => (d, Raised collection_missing)
  | Some _ =>
      match find (member_record cid rid u) (records d) with
      | None => (d, Raised record_not_member)
      | Some _ =>
          (with_records
             (update_where (fun x => Record.id x =? rid) (Record.set_collection_id None)) d,
           Returned (message "Record removed from collection successfully"))
      end
  end.

Definition shared_view (d : Database) (tok : string) : outcome value :=
  match find (live_share tok) (shares d) with
  | None => Raised share_invalid
  | Some sh =>
      match find (share_target sh) (collections d) with
      | None => Raised collection_missing
      | Some c =>
          Returned (VDict [("collection", collection_summary c);
                           ("records",
                            VList (map record_summary (filter (share_member sh) (records d))))])
      end
  end.

(** [new_id] is not yet a primary key of the collection table. *)
Definition fresh_collection_id (new_id : Id) (d : Database) : Prop :=
  ~ In new_id (map Collection.id (collections d)).

(** What a request that assigns attributes to an owned collection, commits
    and refreshes it leaves in the store and answers, [f] being the
    assignments; [update_collection] and [update_collection_partial] are
    shown to compute it ([update_collection_as_updated],
    [update_collection_partial_as_updated]). *)
Definition updated (f : Collection.t -> Collection.t) (cid u : Id) (d : Database)
    : Database * outcome Collection.t :=
  match find (owned_collection cid u) (collections d) with
  | None => (d, Raised collection_missing)
  | Some c0 =>
      let d1 := with_collections (update_where (fun x => Collection.id x =? cid) f) d in
      (d1, Returned match find (fun x => Collection.id x =? cid) (collections d1) with
                    | Some row => row
                    | None => c0
                    end)
  end.

(** The attribute assignments of [update_collection_partial], as one
    function on the loaded row. *)
Definition patch_fields (upd : CollectionUpdate.t) (c : Collection.t) : Collection.t :=
  let c := match CollectionUpdate.name upd with
           | Some n => Collection.set_name n c
           | None => c
           end in
  match CollectionUpdate.description upd with
  | Some x => Collection.set_description (Some x) c
  | None => c
  end.

(** The attribute assignments of [update_collection]. *)
Definition replace_fields (body : CollectionCreate.t) (c : Collection.t) : Collection.t :=
  Collection.set_description (CollectionCreate.description body)
    (Collection.set_name (CollectionCreate.name body) c).

(** The store with every owner id of a collection or a record blanked. *)
Definition erase_owners (d : Database) : Database :=
  mkDatabase (map (Collection.set_user_id "") (collections d))
             (map (Record.set_user_id "") (records d))
             (shares d).

(** ** Vocabulary for properties of the router as a whole *)

(** The routes registered with [router.get]. *)
Definition is_get_route (req : Request) : bool :=
  match req with
  | ListAllReq _ | GetReq _ _ | ListRecordsReq _ _ | AccessSharedReq _ => true
  | _ => false
  end.

(** The caller a request is authenticated as; the share route has none. *)
Definition request_user (req : Request) : option Id :=
  match req with
  | CreateReq _ _ _ u | ListAllReq u | GetReq _ u | ReplaceReq _ _ u | PatchReq _ _ u
  | ListRecordsReq _ u | LinkReq _ _ u | UnlinkReq _ _ u | DeleteReq _ u => Some u
  | AccessSharedReq _ => None
  end.

(** Every membership reference points at a collection of the store that has
    the owner of the record. *)
Definition membership_consistent (d : Database) : Prop :=
  forall r cid,
    In r (records d) -> Record.collection_id r = Some cid ->
    exists c, In c (collections d) /\ Collection.id c = cid
              /\ Collection.user_id c = Record.user_id r.

(** Every membership reference names a collection of the store. *)
Definition references_resolve (d : Database) : Prop :=
  forall r cid,
    In r (records d) -> Record.collection_id r = Some cid ->
    exists c, In c (collections d) /\ Collection.id c = cid.

(** The rows of a table that belong to somebody else than [u]. *)
Definition foreign_collections (u : Id) (d : Database) : list Collection.t :=
  filter (fun c => negb (Collection.user_id c =? u)) (collections d).

Definition foreign_records (u : Id) (d : Database) : list Record.t :=
  filter (fun r => negb (Record.user_id r =? u)) (records d).

(** The [{collection_id}] path parameter of a request, on the routes that
    have one. *)
Definition request_collection (req : Request) : option Id :=
  match req with
  | GetReq cid _ | ReplaceReq cid _ _ | PatchReq cid _ _ | ListRecordsReq cid _
  | LinkReq cid _ _ | UnlinkReq cid _ _ | DeleteReq cid _ => Some cid
  | CreateReq _ _ _ _ | ListAllReq _ | AccessSharedReq _ => None
  end.

(** ** A sample store, used to run the handlers on concrete requests *)

Definition sample_db : Database :=
  mkDatabase
    [Collection.mk "c1" "alice" "Work" (Some "tasks") 10%Z;
     Collection.mk "c2" "bob" "Home" None 11%Z;
     Collection.mk "c3" "alice" "Misc" None 12%Z]
    [Record.mk "r1" "alice" "a.txt" "hi" (Some "c1") 20%Z;
     Record.mk "r2" "bob" "b.txt" "yo" (Some "c1") 21%Z;
     Record.mk "r3" "alice" "c.txt" "zz" (Some "c3") 22%Z;
     Record.mk "r4" "alice" "d.txt" "ww" None 23%Z]
    [Share.mk "tok-live" true (Some "c1");
     Share.mk "tok-revoked" false (Some "c1");
     Share.mk "tok-other" true None].

(** A store in which every membership reference stays within one owner. *)
Definition tidy_db : Database :=
  mkDatabase
    [Collection.mk "c1" "alice" "Work" (Some "tasks") 10;
     Collection.mk "c2" "bob" "Home" None 11;
     Collection.mk "c3" "alice" "Misc" None 12]
    [Record.mk "r1" "alice" "a.txt" "hi" (Some "c1") 20;
     Record.mk "r2" "bob" "b.txt" "yo" (Some "c2") 21;
     Record.mk "r4" "alice" "d.txt" "ww" None 23]
    [Share.mk "tok-live" true (Some "c1")].

(** * Properties *)

(** ** Tables: lookups under a key *)

Section Tables.
Context {R : Type} (key : R -> Id).

Lemma key_determines_row (rows : list R) (x y : R) :
  NoDup (map key rows) -> In x rows -> In y rows -> key x = key y -> x = y.
Proof.
  induction rows as [|z rows IH]; simpl; [tauto|].
  intros ND Hx Hy E. inversion ND as [|? ? Hz ND']; subst.
  destruct Hx as [->|Hx], Hy as [->|Hy]; auto.
  - exfalso. apply Hz. rewrite E. now apply in_map.
  - exfalso. apply Hz. rewrite <- E. now apply in_map.
Qed.

Lemma find_the_row (rows : list R) (p : R -> bool) (x : R) :
  NoDup (map key rows) -> In x rows -> p x = true ->
  (forall y, p y = true -> key y = key x) ->
  find p rows = Some x.
Proof.
  intros ND Hx Px Pk.
  destruct (find p rows) as [y|] eqn:F.
  - apply find_some in F as [Hy Py].
    f_equal. apply (key_determines_row rows); auto.
  - apply find_none with (x := x) in F; congruence.
Qed.

Lemma find_no_row (rows : list R) (p : R -> bool) :
  (forall y, In y rows -> p y = false) -> find p rows = None.
Proof.
  induction rows as [|z rows IH]; simpl; intros H; [reflexivity|].
  rewrite (H z) by auto. apply IH. intros; apply H; auto.
Qed.

Lemma find_update_where (rows : list R) (p q : R -> bool) (f : R -> R) :
  (forall r, p (f r) = p r) ->
  find p (update_where q f rows) =
  option_map (fun r => if q r then f r else r) (find p rows).
Proof.
  intros Hp. unfold update_where.
  induction rows as [|z rows IH]; simpl; [reflexivity|].
  replace (p (if q z then f z else z)) with (p z)
    by (destruct (q z); [rewrite Hp|]; reflexivity).
  destruct (p z); simpl; [reflexivity|apply IH].
Qed.

Lemma keys_update_where (rows : list R) (q : R -> bool) (f : R -> R) :
  (forall r, key (f r) = key r) ->
  map key (update_where q f rows) = map key rows.
Proof.
  intros Hk. unfold update_where. rewrite map_map.
  apply map_ext. intros r. destruct (q r); auto.
Qed.

Lemma NoDup_keys_filter (rows : list R) (q : R -> bool) :
  NoDup (map key rows) -> NoDup (map key (filter q rows)).
Proof.
  induction rows as [|z rows IH]; simpl; intros ND; [constructor|].
  inversion ND as [|? ? Hz ND']; subst.
  destruct (q z); simpl; auto.
  constructor; auto.
  intros Hin. apply Hz. apply in_map_iff in Hin as (y & E & Hy).
  apply filter_In in Hy as [Hy _]. rewrite <- E. now apply in_map.
Qed.

Lemma nth_error_update_where (rows : list R) (q : R -> bool) (f : R -> R) i :
  nth_error (update_where q f rows) i =
  option_map (fun r => if q r then f r else r) (nth_error rows i).
Proof. unfold update_where. apply nth_error_map. Qed.

Lemma update_where_idem (rows : list R) (q : R -> bool) (f : R -> R) :
  (forall r, q (f r) = q r) -> (forall r, f (f r) = f r) ->
  update_where q f (update_where q f rows) = update_where q f rows.
Proof.
  intros Hq Hf. unfold update_where. rewrite map_map. apply map_ext.
  intros r. destruct (q r) eqn:E; rewrite ?Hq, ?E, ?Hf; reflexivity.
Qed.

Lemma update_where_fixed (rows : list R) (q : R -> bool) (f : R -> R) :
  (forall r, In r rows -> q r = true -> f r = r) ->
  update_where q f rows = rows.
Proof.
  intros H. unfold update_where. rewrite <- (map_id rows) at 2.
  apply map_ext_in. intros r Hr. destruct (q r) eqn:E; auto.
Qed.
End Tables.

(** ** Reading the filters *)

Lemma owned_collection_true cid u c :
  owned_collection cid u c = true <-> Collection.id c = cid /\ Collection.user_id c = u.
Proof.
  unfold owned_collection. rewrite andb_true_iff, !String.eqb_eq. tauto.
Qed.

Lemma owned_record_true rid u r :
  owned_record rid u r = true <-> Record.id r = rid /\ Record.user_id r = u.
Proof.
  unfold owned_record. rewrite andb_true_iff, !String.eqb_eq. tauto.
Qed.

Lemma in_collection_true cid r :
  in_collection cid r = true <-> Record.collection_id r = Some cid.
Proof.
  unfold in_collection. destruct (Record.collection_id r) as [c|].
  - rewrite String.eqb_eq. split; congruence.
  - split; discriminate.
Qed.

Lemma live_share_true tok sh :
  live_share tok sh = true <->
  Share.share_token sh = tok /\ Share.is_active sh = true /\ Share.collection_id sh <> None.
Proof.
  unfold live_share. rewrite !andb_true_iff, String.eqb_eq.
  destruct (Share.collection_id sh); intuition congruence.
Qed.

(** ** Running a handler *)

Ltac unfold_session :=
  unfold run, open_session, fmap, bind, ret, raise, not_found,
    query_collection_first, query_collection_all, query_record_first,
    query_record_all, query_share_first, add_collection, flush_collection,
    flush_record, bulk_update_records, delete_collection_row, commit, refresh,
    write, with_collections, with_records in *;
  simpl in *.

Lemma get_collection_found (s : Session) cid u c :
  find (owned_collection cid u) (collections (working s)) = Some c ->
  get_collection cid u s = (s, Returned c).
Proof. intros F. unfold get_collection. unfold_session. now rewrite F. Qed.

Lemma get_collection_missing (s : Session) cid u :
  find (owned_collection cid u) (collections (working s)) = None ->
  get_collection cid u s = (s, Raised collection_missing).
Proof. intros F. unfold get_collection. unfold_session. now rewrite F. Qed.

Lemma find_owned_collection (d : Database) (c : Collection.t) :
  NoDup (map Collection.id (collections d)) -> In c (collections d) ->
  find (owned_collection (Collection.id c) (Collection.user_id c)) (collections d) = Some c.
Proof.
  intros ND Hc. apply find_the_row with (key := Collection.id); auto.
  - now apply owned_collection_true.
  - intros y Hy. now apply owned_collection_true in Hy.
Qed.

Lemma find_foreign_collection (d : Database) (c : Collection.t) (v : Id) :
  NoDup (map Collection.id (collections d)) -> In c (collections d) ->
  v <> Collection.user_id c ->
  find (owned_collection (Collection.id c) v) (collections d) = None.
Proof.
  intros ND Hc Hv. apply find_no_row. intros y Hy.
  destruct (owned_collection (Collection.id c) v y) eqn:E; [|reflexivity].
  apply owned_collection_true in E as [Ei Eu].
  assert (y = c) by (apply (key_determines_row Collection.id (collections d)); auto).
  subst y. congruence.
Qed.

Lemma find_absent_collection (rows : list Collection.t) (cid v : Id) :
  (forall c, In c rows -> Collection.id c <> cid) ->
  find (owned_collection cid v) rows = None.
Proof.
  intros H. apply find_no_row. intros y Hy.
  destruct (owned_collection cid v y) eqn:E; [|reflexivity].
  apply owned_collection_true in E as [Ei _]. now apply H in Hy.
Qed.

Lemma find_appended (c : Collection.t) (rows : list Collection.t) :
  ~ In (Collection.id c) (map Collection.id rows) ->
  find (fun x => Collection.id x =? Collection.id c) (rows ++ [c]) = Some c.
Proof.
  induction rows as [|z rows IH]; simpl; intros Hf.
  - now rewrite String.eqb_refl.
  - destruct (String.eqb_spec (Collection.id z) (Collection.id c)) as [E|_].
    + exfalso. apply Hf. now left.
    + apply IH. intros Hin. apply Hf. now right.
Qed.

Lemma create_collection_spec (d : Database) new_id now body u :
  fresh_collection_id new_id d ->
  let c := Collection.mk new_id u (CollectionCreate.name body)
             (CollectionCreate.description body) now in
  run (create_collection new_id now body u) d =
  (with_collections (fun rows => rows ++ [c]) d, Returned c).
Proof.
  intros Hf c. pose proof (find_appended c (collections d) Hf) as F.
  unfold create_collection. unfold_session. subst c. simpl in F.
  rewrite F. reflexivity.
Qed.

(** C1. A collection created by user [u] is returned to [u] by
    [get_collection] in every store that holds it; any other caller [v] gets
    the 404 "Collection not found", with the store untouched, and that outcome
    is the very one [v] gets from a store in which no collection has this id. *)
Theorem get_collection_owner_only (d : Database) new_id now body (u : Id) :
  fresh_collection_id new_id d ->
  exists c d1,
    run (create_collection new_id now body u) d = (d1, Returned c)
    /\ In c (collections d1)
    /\ Collection.id c = new_id /\ Collection.user_id c = u
    /\ forall d2, pk_unique d2 -> In c (collections d2) ->
         run (get_collection (Collection.id c) u) d2 = (d2, Returned c)
         /\ forall v, v <> u ->
              run (get_collection (Collection.id c) v) d2 = (d2, Raised collection_missing)
              /\ forall d3,
                   (forall c', In c' (collections d3) -> Collection.id c' <> Collection.id c) ->
                   snd (run (get_collection (Collection.id c) v) d3)
                   = snd (run (get_collection (Collection.id c) v) d2).
Proof.
  intros Hf.
  eexists; eexists. split; [apply create_collection_spec; exact Hf|].
  set (c := Collection.mk new_id u _ _ now).
  split; [simpl; apply in_or_app; right; now left|].
  split; [reflexivity|]. split; [reflexivity|].
  intros d2 [NDc _] Hc. split.
  - unfold run. rewrite (get_collection_found (open_session d2) _ _ c); [reflexivity|].
    apply (find_owned_collection d2 c NDc Hc).
  - intros v Hv.
    assert (E2 : run (get_collection (Collection.id c) v) d2 = (d2, Raised collection_missing)).
    { unfold run. rewrite get_collection_missing; [reflexivity|].
      apply (find_foreign_collection d2 c); auto. }
    split; [exact E2|]. intros d3 H3. rewrite E2.
    unfold run. rewrite get_collection_missing; [reflexivity|].
    now apply find_absent_collection.
Qed.

Lemma get_collection_owner_only_witness :
  exists c d1,
    run (create_collection "c9" 30%Z (CollectionCreate.mk "Work" (Some "tasks")) "alice")
        sample_db = (d1, Returned c)
    /\ In c (collections d1)
    /\ Collection.id c = "c9" /\ Collection.user_id c = "alice"
    /\ forall d2, pk_unique d2 -> In c (collections d2) ->
         run (get_collection (Collection.id c) "alice") d2 = (d2, Returned c)
         /\ forall v, v <> "alice" ->
              run (get_collection (Collection.id c) v) d2 = (d2, Raised collection_missing)
              /\ forall d3,
                   (forall c', In c' (collections d3) -> Collection.id c' <> Collection.id c) ->
                   snd (run (get_collection (Collection.id c) v) d3)
                   = snd (run (get_collection (Collection.id c) v) d2).
Proof.
  apply (get_collection_owner_only sample_db "c9" 30%Z
           (CollectionCreate.mk "Work" (Some "tasks")) "alice").
  unfold fresh_collection_id. simpl. intros [H|[H|[H|[]]]]; discriminate H.
Defined.

(** ** Exceptions come before writes *)

Ltac case_lookups :=
  repeat match goal with
  | H : context [match find ?p ?l with _ => _ end] |- _ =>
      let F := fresh "F" in destruct (find p l) eqn:F; simpl in H
  | H : context [match CollectionUpdate.name ?b with _ => _ end] |- _ =>
      destruct (CollectionUpdate.name b); simpl in H
  | H : context [match CollectionUpdate.description ?b with _ => _ end] |- _ =>
      destruct (CollectionUpdate.description b); simpl in H
  end.

(** C9. Whatever the request, a handler that raises has issued no write and
    no commit: the session (its committed store and its working copy alike)
    is the one the handler started from, and the exception is a 404. *)
Theorem raise_leaves_store_unchanged (req : Request) (s s' : Session) (e : HTTPException) :
  dispatch req s = (s', Raised e) ->
  s' = s /\ status_code e = 404%Z.
Proof.
  destruct req; unfold dispatch;
    unfold create_collection, get_all_collections, get_collection,
      update_collection, update_collection_partial, get_records_from_collection,
      add_record_to_collection, remove_record_from_collection, delete_collection,
      access_shared_collection;
    unfold_session; intros H; case_lookups;
    inversion H; subst; split; reflexivity.
Qed.

Lemma raise_leaves_store_unchanged_witness :
  mkSession sample_db sample_db = open_session sample_db
  /\ status_code record_missing = 404%Z.
Proof.
  apply (raise_leaves_store_unchanged (LinkReq "c1" "r2" "alice")
           (open_session sample_db) (mkSession sample_db sample_db) record_missing).
  reflexivity.
Defined.

(** ** The primary-key invariant is kept by every request *)

Ltac case_goal_lookups :=
  repeat match goal with
  | |- context [match find ?p ?l with _ => _ end] =>
      let F := fresh "F" in destruct (find p l) eqn:F; simpl
  | |- context [match CollectionUpdate.name ?b with _ => _ end] =>
      destruct (CollectionUpdate.name b); simpl
  | |- context [match CollectionUpdate.description ?b with _ => _ end] =>
      destruct (CollectionUpdate.description b); simpl
  end.

Ltac unfold_handlers :=
  unfold serve, dispatch, create_collection, get_all_collections, get_collection,
    update_collection, update_collection_partial, get_records_from_collection,
    add_record_to_collection, remove_record_from_collection, delete_collection,
    access_shared_collection in *.

Lemma NoDup_keys_snoc (rows : list Collection.t) (c : Collection.t) :
  NoDup (map Collection.id rows) -> ~ In (Collection.id c) (map Collection.id rows) ->
  NoDup (map Collection.id (rows ++ [c])).
Proof.
  intros ND Hf. rewrite map_app. simpl. apply NoDup_app; auto.
  - constructor; [simpl; tauto|constructor].
  - intros a Ha [<-|[]]. now apply Hf.
Qed.

(** X3. Primary keys stay unique: a request served on a store whose
    collection ids and record ids are pairwise distinct leaves such a store,
    provided a creation brings an id no collection has yet. *)
Lemma serve_keeps_pk_unique (req : Request) (d : Database) :
  pk_unique d ->
  (forall new_id now body u, req = CreateReq new_id now body u ->
     fresh_collection_id new_id d) ->
  pk_unique (fst (serve req d)).
Proof.
  intros [NDc NDr] Hfresh.
  destruct req; unfold_handlers; unfold_session; case_goal_lookups;
    unfold pk_unique; simpl; rewrite ?keys_update_where by reflexivity;
    split; auto;
    first [ apply (NoDup_keys_filter Collection.id); assumption
          | apply (NoDup_keys_snoc (collections d)); auto;
            apply (Hfresh _ _ _ _ eq_refl) ].
Qed.

(** ** Deleting a collection *)

Lemma find_owned_some (rows : list Collection.t) (c : Collection.t) :
  In c rows ->
  exists c0, find (owned_collection (Collection.id c) (Collection.user_id c)) rows = Some c0
             /\ Collection.id c0 = Collection.id c
             /\ Collection.user_id c0 = Collection.user_id c.
Proof.
  intros Hc.
  destruct (find (owned_collection (Collection.id c) (Collection.user_id c)) rows)
    as [c0|] eqn:F.
  - exists c0. split; [reflexivity|].
    apply find_some in F as [_ F]. now apply owned_collection_true in F.
  - apply find_none with (x := c) in F; [|assumption].
    assert (owned_collection (Collection.id c) (Collection.user_id c) c = true)
      by now apply owned_collection_true.
    congruence.
Qed.

Lemma delete_collection_run (d : Database) (cid u : Id) (c0 : Collection.t) :
  find (owned_collection cid u) (collections d) = Some c0 ->
  run (delete_collection cid u) d =
  (mkDatabase
     (delete_where (fun x => Collection.id x =? cid) (collections d))
     (update_where (in_collection cid) (Record.set_collection_id None) (records d))
     (shares d),
   Returned (message "Collection deleted successfully")).
Proof.
  intros F. unfold delete_collection. unfold_session. rewrite F. simpl.
  apply find_some in F as [_ F]. apply owned_collection_true in F as [-> _].
  reflexivity.
Qed.

Lemma in_delete_where (rows : list Collection.t) (cid : Id) (x : Collection.t) :
  In x (delete_where (fun y => Collection.id y =? cid) rows) <->
  In x rows /\ Collection.id x <> cid.
Proof.
  unfold delete_where. rewrite filter_In, negb_true_iff.
  destruct (String.eqb_spec (Collection.id x) cid); intuition congruence.
Qed.

(** C2. Deleting a collection the caller owns succeeds; afterwards no row of
    the collection table has its id, so [get_collection] on it raises the 404
    for every caller; the other collections and the shares are as before; the
    record table keeps every row in place, and a row differs from what it was
    only in its membership reference, which is null if it was this
    collection and is untouched otherwise. *)
Theorem delete_collection_clears_members (d : Database) (c : Collection.t) :
  In c (collections d) ->
  exists d',
    run (delete_collection (Collection.id c) (Collection.user_id c)) d
    = (d', Returned (message "Collection deleted successfully"))
    /\ (forall c', In c' (collections d') <->
                   In c' (collections d) /\ Collection.id c' <> Collection.id c)
    /\ (forall v, run (get_collection (Collection.id c) v) d'
                  = (d', Raised collection_missing))
    /\ shares d' = shares d
    /\ length (records d') = length (records d)
    /\ forall i r, nth_error (records d) i = Some r ->
         exists r', nth_error (records d') i = Some r'
           /\ Record.id r' = Record.id r
           /\ Record.user_id r' = Record.user_id r
           /\ Record.filename r' = Record.filename r
           /\ Record.content r' = Record.content r
           /\ Record.created_at r' = Record.created_at r
           /\ (Record.collection_id r = Some (Collection.id c) ->
               Record.collection_id r' = None)
           /\ (Record.collection_id r <> Some (Collection.id c) ->
               Record.collection_id r' = Record.collection_id r).
Proof.
  intros Hc. destruct (find_owned_some (collections d) c Hc) as (c0 & F & _ & _).
  eexists. split; [apply (delete_collection_run d _ _ c0 F)|]. simpl.
  split; [intros c'; apply in_delete_where|].
  split.
  { intros v. unfold run. rewrite get_collection_missing; [reflexivity|].
    simpl. apply find_absent_collection.
    intros c' Hc'. now apply in_delete_where in Hc'. }
  split; [reflexivity|].
  split; [unfold update_where; apply length_map|].
  intros i r Hi. rewrite nth_error_update_where, Hi. simpl.
  destruct (in_collection (Collection.id c) r) eqn:E.
  - eexists. split; [reflexivity|]. simpl. repeat split; auto.
    apply in_collection_true in E. congruence.
  - exists r. repeat split; auto.
    intros E'. apply in_collection_true in E'. congruence.
Qed.

Lemma delete_collection_clears_members_witness :
  exists d',
    run (delete_collection "c1" "alice") sample_db
    = (d', Returned (message "Collection deleted successfully"))
    /\ run (get_collection "c1" "alice") d' = (d', Raised collection_missing)
    /\ shares d' = shares sample_db
    /\ length (records d') = 4.
Proof.
  destruct (delete_collection_clears_members sample_db
              (Collection.mk "c1" "alice" "Work" (Some "tasks") 10))
    as (d' & E & _ & G & S & L & _).
  - simpl. left. reflexivity.
  - exists d'. repeat split; [exact E|apply G|exact S|exact L].
Defined.

Example delete_collection_sample :
  run (delete_collection "c1" "alice") sample_db =
  (mkDatabase
     [Collection.mk "c2" "bob" "Home" None 11; Collection.mk "c3" "alice" "Misc" None 12]
     [Record.mk "r1" "alice" "a.txt" "hi" None 20;
      Record.mk "r2" "bob" "b.txt" "yo" None 21;
      Record.mk "r3" "alice" "c.txt" "zz" (Some "c3") 22;
      Record.mk "r4" "alice" "d.txt" "ww" None 23]
     (shares sample_db),
   Returned (message "Collection deleted successfully")).
Proof. reflexivity. Qed.

(** ** Replace and partial update *)

Lemma find_owned_collection_by_pk (d : Database) (c : Collection.t) :
  NoDup (map Collection.id (collections d)) -> In c (collections d) ->
  find (fun x => Collection.id x =? Collection.id c) (collections d) = Some c.
Proof.
  intros ND Hc. apply find_the_row with (key := Collection.id); auto.
  - apply String.eqb_refl.
  - intros y Hy. now apply String.eqb_eq in Hy.
Qed.

Lemma find_pk_after_update (rows : list Collection.t) (pk : Id) (f : Collection.t -> Collection.t)
    (c : Collection.t) :
  (forall x, Collection.id (f x) = Collection.id x) ->
  NoDup (map Collection.id rows) -> In c rows -> Collection.id c = pk ->
  find (fun x => Collection.id x =? pk)
       (update_where (fun x => Collection.id x =? pk) f rows) = Some (f c).
Proof.
  intros Hf ND Hc Hpk.
  rewrite find_update_where by (intros r; now rewrite Hf).
  rewrite (find_the_row Collection.id rows _ c); auto.
  - simpl. rewrite <- Hpk, String.eqb_refl. reflexivity.
  - rewrite <- Hpk. apply String.eqb_refl.
  - intros y Hy. apply String.eqb_eq in Hy. congruence.
Qed.

Lemma update_collection_run (d : Database) (c : Collection.t) (body : CollectionCreate.t) :
  NoDup (map Collection.id (collections d)) -> In c (collections d) ->
  let f := replace_fields body in
  run (update_collection (Collection.id c) body (Collection.user_id c)) d =
  (with_collections (update_where (fun x => Collection.id x =? Collection.id c) f) d,
   Returned (f c)).
Proof.
  intros ND Hc f.
  pose proof (find_pk_after_update (collections d) (Collection.id c) f c
                (fun _ => eq_refl) ND Hc eq_refl) as P.
  subst f. unfold replace_fields in *. unfold update_collection. unfold_session.
  rewrite (find_owned_collection d c ND Hc). simpl.
  rewrite P. reflexivity.
Qed.

Lemma update_where_twice {R} (q : R -> bool) (f g : R -> R) (rows : list R) :
  (forall r, q (f r) = q r) ->
  update_where q g (update_where q f rows) = update_where q (fun r => g (f r)) rows.
Proof.
  intros Hq. unfold update_where. rewrite map_map. apply map_ext.
  intros r. destruct (q r) eqn:E; rewrite ?Hq, E; reflexivity.
Qed.

Lemma update_collection_partial_run (d : Database) (c : Collection.t)
    (upd : CollectionUpdate.t) :
  NoDup (map Collection.id (collections d)) -> In c (collections d) ->
  run (update_collection_partial (Collection.id c) upd (Collection.user_id c)) d =
  (with_collections
     (update_where (fun x => Collection.id x =? Collection.id c) (patch_fields upd)) d,
   Returned (patch_fields upd c)).
Proof.
  intros ND Hc.
  pose proof (fun f K => find_pk_after_update (collections d) (Collection.id c) f c
                           K ND Hc eq_refl) as P.
  unfold update_collection_partial. unfold_session.
  rewrite (find_owned_collection d c ND Hc). simpl.
  unfold patch_fields.
  destruct (CollectionUpdate.name upd) as [n|], (CollectionUpdate.description upd) as [x|];
    simpl; rewrite ?update_where_twice by reflexivity.
  - rewrite (P (fun r => Collection.set_description (Some x) (Collection.set_name n r)))
      by reflexivity.
    reflexivity.
  - rewrite (P (Collection.set_name n)) by reflexivity. reflexivity.
  - rewrite (P (Collection.set_description (Some x))) by reflexivity. reflexivity.
  - rewrite (find_owned_collection_by_pk d c ND Hc).
    rewrite (update_where_fixed (collections d) _ (fun r => r)) by reflexivity.
    destruct d; reflexivity.
Qed.

Lemma nth_error_update_pk (rows : list Collection.t) (f : Collection.t -> Collection.t)
    (c : Collection.t) i x :
  NoDup (map Collection.id rows) -> In c rows ->
  nth_error rows i = Some x ->
  nth_error (update_where (fun y => Collection.id y =? Collection.id c) f rows) i
  = Some (if Collection.id x =? Collection.id c then f c else x).
Proof.
  intros ND Hc Hi. rewrite nth_error_update_where, Hi. simpl.
  destruct (String.eqb_spec (Collection.id x) (Collection.id c)) as [E|_]; [|reflexivity].
  f_equal. f_equal.
  apply (key_determines_row Collection.id rows); auto.
  now apply nth_error_In in Hi.
Qed.

(** C3. On a collection [c] the caller owns, [update_collection_partial]
    returns (and stores in place of [c]) a row whose name is the name of the
    request if it carries one and the name of [c] if not, and likewise for the
    description, whereas [update_collection] stores the request's name and
    description whatever they are: a request without description leaves the
    description null.  Both leave id, owner and creation time, and every other
    row of the table, as they were. *)
Theorem patch_keeps_absent_replace_overwrites
    (d : Database) (c : Collection.t) (upd : CollectionUpdate.t) (body : CollectionCreate.t) :
  pk_unique d -> In c (collections d) ->
  (exists d1 c1,
     run (update_collection_partial (Collection.id c) upd (Collection.user_id c)) d
     = (d1, Returned c1)
     /\ Collection.name c1 = match CollectionUpdate.name upd with
                             | Some n => n
                             | None => Collection.name c
                             end
     /\ Collection.description c1 = match CollectionUpdate.description upd with
                                    | Some x => Some x
                                    | None => Collection.description c
                                    end
     /\ Collection.id c1 = Collection.id c
     /\ Collection.user_id c1 = Collection.user_id c
     /\ Collection.created_at c1 = Collection.created_at c
     /\ records d1 = records d /\ shares d1 = shares d
     /\ forall i x, nth_error (collections d) i = Some x ->
          nth_error (collections d1) i
          = Some (if Collection.id x =? Collection.id c then c1 else x))
  /\
  (exists d2 c2,
     run (update_collection (Collection.id c) body (Collection.user_id c)) d
     = (d2, Returned c2)
     /\ Collection.name c2 = CollectionCreate.name body
     /\ Collection.description c2 = CollectionCreate.description body
     /\ (CollectionCreate.description body = None -> Collection.description c2 = None)
     /\ Collection.id c2 = Collection.id c
     /\ Collection.user_id c2 = Collection.user_id c
     /\ Collection.created_at c2 = Collection.created_at c
     /\ records d2 = records d /\ shares d2 = shares d
     /\ forall i x, nth_error (collections d) i = Some x ->
          nth_error (collections d2) i
          = Some (if Collection.id x =? Collection.id c then c2 else x)).
Proof.
  intros [ND _] Hc. split.
  - eexists; eexists. split; [apply (update_collection_partial_run d c upd ND Hc)|].
    unfold patch_fields.
    repeat split;
      try (destruct (CollectionUpdate.name upd), (CollectionUpdate.description upd);
           reflexivity).
    intros i x Hi. simpl. now apply nth_error_update_pk.
  - eexists; eexists. split; [apply (update_collection_run d c body ND Hc)|].
    repeat split; auto.
    intros i x Hi. simpl. now apply nth_error_update_pk.
Qed.

Lemma patch_keeps_absent_replace_overwrites_witness :
  (exists d1 c1,
     run (update_collection_partial "c1" (CollectionUpdate.mk (Some "Job") None) "alice")
         sample_db = (d1, Returned c1)
     /\ Collection.name c1 = "Job"
     /\ Collection.description c1 = Some "tasks")
  /\
  (exists d2 c2,
     run (update_collection "c1" (CollectionCreate.mk "Job" None) "alice") sample_db
     = (d2, Returned c2)
     /\ Collection.name c2 = "Job"
     /\ Collection.description c2 = None).
Proof.
  destruct (patch_keeps_absent_replace_overwrites sample_db
              (Collection.mk "c1" "alice" "Work" (Some "tasks") 10)
              (CollectionUpdate.mk (Some "Job") None)
              (CollectionCreate.mk "Job" None))
    as [(d1 & c1 & E1 & N1 & D1 & _) (d2 & c2 & E2 & N2 & D2 & _)].
  - split; simpl; repeat constructor; simpl; intuition discriminate.
  - simpl. left. reflexivity.
  - split; [exists d1, c1|exists d2, c2]; repeat split; assumption.
Defined.

(** ** Access through a share token *)

Lemma access_shared_no_share (s : Session) (tok : string) :
  find (live_share tok) (shares (working s)) = None ->
  access_shared_collection tok s = (s, Raised share_invalid).
Proof. intros F. unfold access_shared_collection. unfold_session. now rewrite F. Qed.

Lemma live_share_false tok sh :
  live_share tok sh = false <->
  (Share.share_token sh = tok ->
   Share.is_active sh = false \/ Share.collection_id sh = None).
Proof.
  unfold live_share.
  destruct (String.eqb_spec (Share.share_token sh) tok) as [E|NE];
    destruct (Share.is_active sh), (Share.collection_id sh); simpl;
    intuition (try discriminate; try congruence).
Qed.

(** C4. [access_shared_collection] raises the 404 "Invalid or expired share
    link", and leaves the store as it is, exactly when every share carrying
    the token is inactive or has a null collection reference.  So a token no
    share carries, a token whose shares are inactive, and a token whose shares
    reference no collection all get this one exception. *)
Theorem access_shared_rejects_uniformly (d : Database) (tok : string) :
  (run (access_shared_collection tok) d = (d, Raised share_invalid) <->
   forall sh, In sh (shares d) -> Share.share_token sh = tok ->
              Share.is_active sh = false \/ Share.collection_id sh = None)
  /\ ((forall sh, In sh (shares d) -> Share.share_token sh <> tok) ->
      run (access_shared_collection tok) d = (d, Raised share_invalid))
  /\ ((forall sh, In sh (shares d) -> Share.share_token sh = tok ->
                  Share.is_active sh = false) ->
      run (access_shared_collection tok) d = (d, Raised share_invalid))
  /\ ((forall sh, In sh (shares d) -> Share.share_token sh = tok ->
                  Share.collection_id sh = None) ->
      run (access_shared_collection tok) d = (d, Raised share_invalid)).
Proof.
  assert (G : (forall sh, In sh (shares d) -> Share.share_token sh = tok ->
                          Share.is_active sh = false \/ Share.collection_id sh = None) ->
              run (access_shared_collection tok) d = (d, Raised share_invalid)).
  { intros H. unfold run. rewrite access_shared_no_share; [reflexivity|].
    simpl. apply find_no_row. intros sh Hsh. apply live_share_false. now apply H. }
  split; [split; [|exact G]|].
  - intros E sh Hsh. apply live_share_false.
    destruct (find (live_share tok) (shares d)) as [sh0|] eqn:F.
    + exfalso. unfold access_shared_collection in E. unfold_session.
      rewrite F in E. simpl in E.
      destruct (find (share_target sh0) (collections d)); simpl in E; discriminate E.
    + now apply find_none with (x := sh) in F.
  - repeat split; intros H; apply G; intros sh Hsh Htok.
    + now apply H in Hsh.
    + left. now apply H.
    + right. now apply H.
Qed.

Lemma access_shared_rejects_uniformly_witness :
  run (access_shared_collection "tok-revoked") sample_db = (sample_db, Raised share_invalid).
Proof.
  apply (proj1 (proj2 (proj2 (access_shared_rejects_uniformly sample_db "tok-revoked")))).
  simpl. intros sh [<-|[<-|[<-|[]]]] T; try reflexivity; discriminate T.
Defined.

Example access_shared_rejects_sample :
  run (access_shared_collection "tok-unknown") sample_db = (sample_db, Raised share_invalid)
  /\ run (access_shared_collection "tok-revoked") sample_db = (sample_db, Raised share_invalid)
  /\ run (access_shared_collection "tok-other") sample_db = (sample_db, Raised share_invalid).
Proof. repeat split. Qed.

Lemma find_map_stable {R} (p : R -> bool) (g : R -> R) (rows : list R) :
  (forall r, p (g r) = p r) ->
  find p (map g rows) = option_map g (find p rows).
Proof.
  intros Hp. induction rows as [|z rows IH]; simpl; [reflexivity|].
  rewrite Hp. destruct (p z); [reflexivity|apply IH].
Qed.

Lemma filter_map_stable {R} (p : R -> bool) (g : R -> R) (rows : list R) :
  (forall r, p (g r) = p r) ->
  filter p (map g rows) = map g (filter p rows).
Proof.
  intros Hp. induction rows as [|z rows IH]; simpl; [reflexivity|].
  rewrite Hp. destruct (p z); simpl; now rewrite IH.
Qed.

Lemma access_shared_run (d : Database) (tok : string) :
  run (access_shared_collection tok) d = (d, shared_view d tok).
Proof.
  unfold access_shared_collection, shared_view. unfold_session.
  destruct (find (live_share tok) (shares d)) as [sh|]; simpl; [|reflexivity].
  destruct (find (share_target sh) (collections d)); reflexivity.
Qed.

Lemma shared_view_erase_owners (d : Database) (tok : string) :
  shared_view (erase_owners d) tok = shared_view d tok.
Proof.
  unfold shared_view, erase_owners. simpl.
  destruct (find (live_share tok) (shares d)) as [sh|]; [|reflexivity].
  rewrite find_map_stable by reflexivity.
  destruct (find (share_target sh) (collections d)) as [c|]; simpl; [|reflexivity].
  rewrite filter_map_stable by reflexivity.
  rewrite map_map. reflexivity.
Qed.

(** C5. A response of [access_shared_collection] is the dict with the two
    keys [collection] and [records]: the first holds id, name, description
    and creation time of the collection the share references, the second
    holds, for each record whose membership reference is that collection, its
    id, filename, content and creation time, in store order; there is no other
    key, and looking up [user_id] in the collection part or in any record
    part finds nothing.  The response is blind to owner ids: every store that differs from
    this one only in the owners of collections and records yields the same
    response. *)
Theorem access_shared_exposes_whitelist (d : Database) (tok : string) (v : value) :
  snd (run (access_shared_collection tok) d) = Returned v ->
  exists sh c,
    In sh (shares d) /\ Share.share_token sh = tok
    /\ In c (collections d) /\ Share.collection_id sh = Some (Collection.id c)
    /\ v = VDict
             [("collection",
               VDict [("id", VStr (Collection.id c));
                      ("name", VStr (Collection.name c));
                      ("description", opt_str (Collection.description c));
                      ("created_at", VTime (Collection.created_at c))]);
              ("records",
               VList (map (fun r => VDict [("id", VStr (Record.id r));
                                           ("filename", VStr (Record.filename r));
                                           ("content", VStr (Record.content r));
                                           ("created_at", VTime (Record.created_at r))])
                          (filter (fun r => match Record.collection_id r with
                                            | Some x => x =? Collection.id c
                                            | None => false
                                            end)
                                  (records d))))]
    /\ option_map (dict_get "user_id") (dict_get "collection" v) = Some None
    /\ (forall recs x, dict_get "records" v = Some (VList recs) -> In x recs ->
                       dict_get "user_id" x = None)
    /\ (forall d', erase_owners d' = erase_owners d ->
                   snd (run (access_shared_collection tok) d') = Returned v).
Proof.
  rewrite access_shared_run. simpl. intros E.
  assert (NI : forall d', erase_owners d' = erase_owners d ->
                          snd (run (access_shared_collection tok) d') = Returned v).
  { intros d' Hd'. rewrite access_shared_run. simpl.
    rewrite <- (shared_view_erase_owners d'), Hd', shared_view_erase_owners. exact E. }
  unfold shared_view in E.
  destruct (find (live_share tok) (shares d)) as [sh|] eqn:F; [|discriminate E].
  destruct (find (share_target sh) (collections d)) as [c|] eqn:G; [|discriminate E].
  apply find_some in F as [Hsh L]. apply live_share_true in L as (Htok & _ & _).
  apply find_some in G as [Hc T]. unfold share_target in T.
  destruct (Share.collection_id sh) as [cid|] eqn:Ecid; [|discriminate T].
  apply String.eqb_eq in T. subst cid.
  injection E as <-.
  exists sh, c. repeat split; auto.
  - unfold share_member. rewrite Ecid. reflexivity.
  - intros recs x R Hx. simpl in R. injection R as <-.
    apply in_map_iff in Hx as (r & <- & _). reflexivity.
Qed.

Lemma access_shared_exposes_whitelist_witness :
  exists sh c,
    In sh (shares sample_db) /\ Share.share_token sh = "tok-live"
    /\ In c (collections sample_db) /\ Share.collection_id sh = Some (Collection.id c)
    /\ (forall d', erase_owners d' = erase_owners sample_db ->
          snd (run (access_shared_collection "tok-live") d')
          = Returned
              (VDict
                 [("collection",
                   VDict [("id", VStr "c1"); ("name", VStr "Work");
                          ("description", VStr "tasks"); ("created_at", VTime 10)]);
                  ("records",
                   VList [VDict [("id", VStr "r1"); ("filename", VStr "a.txt");
                                 ("content", VStr "hi"); ("created_at", VTime 20)];
                          VDict [("id", VStr "r2"); ("filename", VStr "b.txt");
                                 ("content", VStr "yo"); ("created_at", VTime 21)]])])).
Proof.
  destruct (access_shared_exposes_whitelist sample_db "tok-live" _ eq_refl)
    as (sh & c & H1 & H2 & H3 & H4 & _ & _ & _ & H6).
  exists sh, c. repeat split; assumption.
Defined.

(** ** Linking a record *)

Lemma add_record_no_collection (d : Database) (cid rid u : Id) :
  find (owned_collection cid u) (collections d) = None ->
  run (add_record_to_collection cid rid u) d = (d, Raised collection_missing).
Proof. intros F. unfold add_record_to_collection. unfold_session. now rewrite F. Qed.

Lemma add_record_no_record (d : Database) (cid rid u : Id) (c : Collection.t) :
  find (owned_collection cid u) (collections d) = Some c ->
  find (owned_record rid u) (records d) = None ->
  run (add_record_to_collection cid rid u) d = (d, Raised record_missing).
Proof.
  intros F G. unfold add_record_to_collection. unfold_session.
  rewrite F. simpl. now rewrite G.
Qed.

Lemma add_record_linked (d : Database) (cid rid u : Id) (c : Collection.t) (r : Record.t) :
  find (owned_collection cid u) (collections d) = Some c ->
  find (owned_record rid u) (records d) = Some r ->
  run (add_record_to_collection cid rid u) d =
  (with_records
     (update_where (fun x => Record.id x =? rid) (Record.set_collection_id (Some cid))) d,
   Returned (message "Record added to collection successfully")).
Proof.
  intros F G. unfold add_record_to_collection. unfold_session.
  rewrite F. simpl. rewrite G. simpl.
  apply find_some in G as [_ G]. apply owned_record_true in G as [-> _].
  reflexivity.
Qed.

Lemma find_some_owned_collection (rows : list Collection.t) (cid u : Id) (c : Collection.t) :
  In c rows -> Collection.id c = cid -> Collection.user_id c = u ->
  exists c0, find (owned_collection cid u) rows = Some c0.
Proof.
  intros Hc <- <-. destruct (find_owned_some rows c Hc) as (c0 & F & _).
  now exists c0.
Qed.

Lemma find_none_owned_collection (rows : list Collection.t) (cid u : Id) :
  (forall c, In c rows -> Collection.id c = cid -> Collection.user_id c <> u) ->
  find (owned_collection cid u) rows = None.
Proof.
  intros H. apply find_no_row. intros y Hy.
  destruct (owned_collection cid u y) eqn:E; [|reflexivity].
  apply owned_collection_true in E as [Ei Eu]. now destruct (H y Hy Ei).
Qed.

Lemma find_none_owned_record (rows : list Record.t) (rid u : Id) :
  (forall r, In r rows -> Record.id r = rid -> Record.user_id r <> u) ->
  find (owned_record rid u) rows = None.
Proof.
  intros H. apply find_no_row. intros y Hy.
  destruct (owned_record rid u y) eqn:E; [|reflexivity].
  apply owned_record_true in E as [Ei Eu]. now destruct (H y Hy Ei).
Qed.

(** C6. [add_record_to_collection] raises a 404 and writes nothing when the
    caller owns no collection with the given id ("Collection not found"), and
    when the caller owns the collection but no record with the given id
    ("Record not found"); the latter is what happens when the record with
    that id belongs to someone else.  The two exceptions carry the same
    status and different details. *)
Theorem link_requires_both_owned (d : Database) (cid rid u : Id) :
  ((forall c, In c (collections d) -> Collection.id c = cid -> Collection.user_id c <> u) ->
   run (add_record_to_collection cid rid u) d = (d, Raised collection_missing))
  /\ (forall c, In c (collections d) -> Collection.id c = cid -> Collection.user_id c = u ->
      ((forall r, In r (records d) -> Record.id r = rid -> Record.user_id r <> u) ->
       run (add_record_to_collection cid rid u) d = (d, Raised record_missing))
      /\ (forall r, pk_unique d -> In r (records d) -> Record.id r = rid ->
                    Record.user_id r <> u ->
          run (add_record_to_collection cid rid u) d = (d, Raised record_missing)))
  /\ status_code collection_missing = 404%Z
  /\ status_code record_missing = 404%Z
  /\ detail collection_missing <> detail record_missing.
Proof.
  split; [|split].
  - intros H. apply add_record_no_collection. now apply find_none_owned_collection.
  - intros c Hc Hid Hu.
    destruct (find_some_owned_collection (collections d) cid u c Hc Hid Hu) as [c0 F].
    assert (G : (forall r, In r (records d) -> Record.id r = rid -> Record.user_id r <> u) ->
                run (add_record_to_collection cid rid u) d = (d, Raised record_missing)).
    { intros H. apply (add_record_no_record d cid rid u c0 F).
      now apply find_none_owned_record. }
    split; [exact G|].
    intros r [_ ND] Hr Hrid Hru. apply G. intros r' Hr' Hrid'.
    assert (r' = r)
      by (apply (key_determines_row Record.id (records d)); auto; congruence).
    now subst r'.
  - repeat split. discriminate.
Qed.

Lemma link_requires_both_owned_witness :
  run (add_record_to_collection "c1" "r2" "alice") sample_db
  = (sample_db, Raised record_missing).
Proof.
  refine (proj2 (proj1 (proj2 (link_requires_both_owned sample_db "c1" "r2" "alice"))
                   (Collection.mk "c1" "alice" "Work" (Some "tasks") 10) _ eq_refl eq_refl)
            (Record.mk "r2" "bob" "b.txt" "yo" (Some "c1") 21) _ _ eq_refl _).
  - simpl. left. reflexivity.
  - split; simpl; repeat constructor; simpl; intuition discriminate.
  - simpl. right. left. reflexivity.
  - simpl. discriminate.
Defined.

(** ** Unlinking a record *)

Lemma member_record_true cid rid u r :
  member_record cid rid u r = true <->
  Record.id r = rid /\ Record.user_id r = u /\ Record.collection_id r = Some cid.
Proof.
  unfold member_record.
  rewrite andb_true_iff, owned_record_true, in_collection_true. tauto.
Qed.

Lemma remove_record_run (d : Database) (cid rid u : Id) :
  run (remove_record_from_collection cid rid u) d = unlinked cid rid u d.
Proof.
  unfold remove_record_from_collection, unlinked, member_record. unfold_session.
  destruct (find (owned_collection cid u) (collections d)); simpl; [|reflexivity].
  destruct (find _ (records d)) as [r|] eqn:G; simpl; [|reflexivity].
  apply find_some in G as [_ G]. apply andb_true_iff in G as [G _].
  apply owned_record_true in G as [-> _]. reflexivity.
Qed.

(** C7. [remove_record_from_collection] succeeds exactly when the caller owns
    a collection with the given id and owns a record with the given id whose
    membership reference is that collection.  In every other case it raises
    a 404 ("Collection not found" or "Record not found in this collection")
    and writes nothing; so it does for the record with that id when that
    record is linked to another collection or to none.  On success the row
    with the record id has a null membership reference and nothing else in
    the store has changed. *)
Theorem unlink_requires_membership (d : Database) (cid rid u : Id) :
  let o := run (remove_record_from_collection cid rid u) d in
  (snd o = Returned (message "Record removed from collection successfully") <->
   (exists c, In c (collections d) /\ Collection.id c = cid /\ Collection.user_id c = u)
   /\ (exists r, In r (records d) /\ Record.id r = rid /\ Record.user_id r = u
                 /\ Record.collection_id r = Some cid))
  /\ (snd o = Returned (message "Record removed from collection successfully")
      \/ fst o = d /\ (snd o = Raised collection_missing \/ snd o = Raised record_not_member))
  /\ (pk_unique d ->
      forall r, In r (records d) -> Record.id r = rid ->
                Record.collection_id r <> Some cid ->
                fst o = d /\ is_not_found (snd o))
  /\ (snd o = Returned (message "Record removed from collection successfully") ->
      collections (fst o) = collections d /\ shares (fst o) = shares d
      /\ (forall r', In r' (records (fst o)) -> Record.id r' = rid ->
                     Record.collection_id r' = None)
      /\ forall i r, nth_error (records d) i = Some r ->
           nth_error (records (fst o)) i
           = Some (if Record.id r =? rid
                   then Record.mk (Record.id r) (Record.user_id r) (Record.filename r)
                          (Record.content r) None (Record.created_at r)
                   else r)).
Proof.
  intros o. subst o. rewrite remove_record_run. unfold unlinked.
  destruct (find (owned_collection cid u) (collections d)) as [c|] eqn:F.
  - apply find_some in F as [Hc F]. apply owned_collection_true in F as [Hci Hcu].
    destruct (find (member_record cid rid u) (records d)) as [r|] eqn:G; simpl.
    + apply find_some in G as [Hr G]. apply member_record_true in G as (Hri & Hru & Hrc).
      split; [split; [intros _; split; [exists c|exists r]; auto|reflexivity]|].
      split; [now left|].
      split.
      { intros [_ ND] r' Hr' Hri' Hrc'. exfalso. apply Hrc'.
        assert (r' = r)
          by (apply (key_determines_row Record.id (records d)); auto; congruence).
        now subst r'. }
      intros _. repeat split.
      * intros r' Hr' Hri'. unfold update_where in Hr'.
        apply in_map_iff in Hr' as (x & Ex & _).
        destruct (String.eqb_spec (Record.id x) rid) as [E|NE]; subst r'; [reflexivity|].
        now destruct NE.
      * intros i x Hi. rewrite nth_error_update_where, Hi. reflexivity.
    + split.
      { split; [discriminate|]. intros [_ (r & Hr & Hri & Hru & Hrc)].
        apply find_none with (x := r) in G; [|assumption].
        assert (member_record cid rid u r = true) by now apply member_record_true.
        congruence. }
      split; [right; auto|].
      split; [intros _ r _ _ _; split; [reflexivity|eexists; reflexivity]|].
      discriminate.
  - simpl. split.
    { split; [discriminate|]. intros [(c & Hc & Hci & Hcu) _].
      apply find_none with (x := c) in F; [|assumption].
      assert (owned_collection cid u c = true) by now apply owned_collection_true.
      congruence. }
    split; [right; auto|].
    split; [intros _ r _ _ _; split; [reflexivity|eexists; reflexivity]|].
    discriminate.
Qed.

Lemma unlink_requires_membership_witness :
  fst (run (remove_record_from_collection "c1" "r3" "alice") sample_db) = sample_db
  /\ is_not_found (snd (run (remove_record_from_collection "c1" "r3" "alice") sample_db)).
Proof.
  refine (proj1 (proj2 (proj2 (unlink_requires_membership sample_db "c1" "r3" "alice")))
            _ (Record.mk "r3" "alice" "c.txt" "zz" (Some "c3") 22) _ eq_refl _).
  - split; simpl; repeat constructor; simpl; intuition discriminate.
  - simpl. right. right. left. reflexivity.
  - simpl. discriminate.
Defined.

Example unlink_sample :
  run (remove_record_from_collection "c1" "r1" "alice") sample_db =
  (mkDatabase (collections sample_db)
     [Record.mk "r1" "alice" "a.txt" "hi" None 20;
      Record.mk "r2" "bob" "b.txt" "yo" (Some "c1") 21;
      Record.mk "r3" "alice" "c.txt" "zz" (Some "c3") 22;
      Record.mk "r4" "alice" "d.txt" "ww" None 23]
     (shares sample_db),
   Returned (message "Record removed from collection successfully"))
  /\ run (remove_record_from_collection "c1" "r4" "alice") sample_db
     = (sample_db, Raised record_not_member)
  /\ run (remove_record_from_collection "c1" "r2" "alice") sample_db
     = (sample_db, Raised record_not_member)
  /\ run (remove_record_from_collection "c2" "r1" "alice") sample_db
     = (sample_db, Raised collection_missing).
Proof. repeat split. Qed.

(** ** Linking twice *)

Lemma add_record_run (d : Database) (cid rid u : Id) :
  run (add_record_to_collection cid rid u) d = linked cid rid u d.
Proof.
  unfold linked.
  destruct (find (owned_collection cid u) (collections d)) as [c|] eqn:F.
  - destruct (find (owned_record rid u) (records d)) as [r|] eqn:G.
    + now apply (add_record_linked d cid rid u c r).
    + now apply (add_record_no_record d cid rid u c).
  - now apply add_record_no_collection.
Qed.

(** C8. Linking is idempotent.  When the caller owns collection and record
    and the record's membership reference is already this collection,
    [add_record_to_collection] succeeds and the store it leaves is the store
    it found.  And whenever a link request succeeds, the same request on the
    resulting store succeeds again and changes nothing. *)
Theorem link_is_idempotent (d : Database) (cid rid u : Id) :
  (pk_unique d ->
   forall c r,
     In c (collections d) -> Collection.id c = cid -> Collection.user_id c = u ->
     In r (records d) -> Record.id r = rid -> Record.user_id r = u ->
     Record.collection_id r = Some cid ->
     run (add_record_to_collection cid rid u) d
     = (d, Returned (message "Record added to collection successfully")))
  /\ (forall d1 m,
        run (add_record_to_collection cid rid u) d = (d1, Returned m) ->
        run (add_record_to_collection cid rid u) d1 = (d1, Returned m)).
Proof.
  split.
  - intros [_ ND] c r Hc Hci Hcu Hr Hri Hru Hrc.
    destruct (find_some_owned_collection (collections d) cid u c Hc Hci Hcu) as [c0 F].
    assert (G : find (owned_record rid u) (records d) = Some r).
    { apply find_the_row with (key := Record.id); auto.
      - now apply owned_record_true.
      - intros y Hy. apply owned_record_true in Hy. destruct Hy; congruence. }
    rewrite (add_record_linked d cid rid u c0 r F G). f_equal.
    destruct d as [cs rs ss]. unfold with_records. simpl in *. f_equal.
    apply update_where_fixed. intros x Hx Ex. apply String.eqb_eq in Ex.
    assert (x = r) by (apply (key_determines_row Record.id rs); auto; congruence).
    subst x. destruct r; simpl in *. now subst.
  - intros d1 m. rewrite !add_record_run. unfold linked.
    destruct (find (owned_collection cid u) (collections d)) as [c|] eqn:F;
      [|discriminate].
    destruct (find (owned_record rid u) (records d)) as [r|] eqn:G; [|discriminate].
    intros E. injection E as <- <-. simpl. rewrite F.
    rewrite find_update_where by reflexivity. rewrite G. simpl.
    unfold with_records. simpl.
    rewrite update_where_idem by reflexivity. reflexivity.
Qed.

Lemma link_is_idempotent_witness :
  run (add_record_to_collection "c1" "r1" "alice") sample_db
  = (sample_db, Returned (message "Record added to collection successfully")).
Proof.
  refine (proj1 (link_is_idempotent sample_db "c1" "r1" "alice") _
            (Collection.mk "c1" "alice" "Work" (Some "tasks") 10)
            (Record.mk "r1" "alice" "a.txt" "hi" (Some "c1") 20)
            _ eq_refl eq_refl _ eq_refl eq_refl eq_refl).
  - split; simpl; repeat constructor; simpl; intuition discriminate.
  - simpl. left. reflexivity.
  - simpl. left. reflexivity.
Defined.

Example link_twice_sample :
  forall d1 m,
    run (add_record_to_collection "c3" "r4" "alice") sample_db = (d1, Returned m) ->
    records d1 =
      [Record.mk "r1" "alice" "a.txt" "hi" (Some "c1") 20;
       Record.mk "r2" "bob" "b.txt" "yo" (Some "c1") 21;
       Record.mk "r3" "alice" "c.txt" "zz" (Some "c3") 22;
       Record.mk "r4" "alice" "d.txt" "ww" (Some "c3") 23]
    /\ run (add_record_to_collection "c3" "r4" "alice") d1 = (d1, Returned m).
Proof.
  intros d1 m E. injection E as <- <-. split; reflexivity.
Qed.

(** ** Membership queries *)

Lemma get_records_run (d : Database) (cid u : Id) (c : Collection.t) :
  find (owned_collection cid u) (collections d) = Some c ->
  run (get_records_from_collection cid u) d
  = (d, Returned (filter (in_collection cid) (records d))).
Proof.
  intros F. unfold get_records_from_collection. unfold_session. now rewrite F.
Qed.

Lemma find_live_share (rows : list Share.t) (sh : Share.t) (cid : Id) :
  In sh rows -> Share.is_active sh = true -> Share.collection_id sh = Some cid ->
  (forall sh', In sh' rows -> Share.share_token sh' = Share.share_token sh -> sh' = sh) ->
  find (live_share (Share.share_token sh)) rows = Some sh.
Proof.
  intros Hsh Ha Hc Hu.
  assert (L : live_share (Share.share_token sh) sh = true)
    by (apply live_share_true; repeat split; congruence).
  destruct (find (live_share (Share.share_token sh)) rows) as [sh0|] eqn:F.
  - apply find_some in F as [H0 L0]. apply live_share_true in L0 as [T0 _].
    f_equal. now apply Hu.
  - apply find_none with (x := sh) in F; congruence.
Qed.

Lemma share_target_id (sh : Share.t) (cid : Id) (c : Collection.t) :
  Share.collection_id sh = Some cid ->
  share_target sh c = true -> Collection.id c = cid.
Proof. intros E. unfold share_target. rewrite E. apply String.eqb_eq. Qed.

(** C10. The record sets of [get_records_from_collection],
    [delete_collection] and [access_shared_collection] are selected by
    membership reference and by nothing else.  For a collection [c] of the
    store, call a record a member when its membership reference is the id
    of [c].  The owner of [c] gets from [get_records_from_collection] the
    members, all of them and no other record, in store order;
    [delete_collection] by the owner of [c] nulls the membership reference
    of the members and leaves every other record as it is; a token carried
    by one share, active and referencing [c], gets the summary of the
    collection with the id of [c] and the summaries of the members, all of
    them and no other record.  No owner of a record is looked at: a member
    is listed, cleared and shown whoever owns it. *)
Theorem membership_queries_ignore_record_owner (d : Database) (c : Collection.t) :
  In c (collections d) ->
  let member := fun r : Record.t =>
                  match Record.collection_id r with
                  | Some x => x =? Collection.id c
                  | None => false
                  end in
  let cleared := fun r : Record.t =>
                   Record.mk (Record.id r) (Record.user_id r) (Record.filename r)
                     (Record.content r) None (Record.created_at r) in
  let summary := fun r : Record.t =>
                   VDict [("id", VStr (Record.id r));
                          ("filename", VStr (Record.filename r));
                          ("content", VStr (Record.content r));
                          ("created_at", VTime (Record.created_at r))] in
  run (get_records_from_collection (Collection.id c) (Collection.user_id c)) d
  = (d, Returned (filter member (records d)))
  /\ (exists d',
        run (delete_collection (Collection.id c) (Collection.user_id c)) d
        = (d', Returned (message "Collection deleted successfully"))
        /\ length (records d') = length (records d)
        /\ forall i x, nth_error (records d) i = Some x ->
             nth_error (records d') i = Some (if member x then cleared x else x))
  /\ (forall sh,
        In sh (shares d) -> Share.is_active sh = true ->
        Share.collection_id sh = Some (Collection.id c) ->
        (forall sh', In sh' (shares d) ->
                     Share.share_token sh' = Share.share_token sh -> sh' = sh) ->
        exists c1,
          In c1 (collections d) /\ Collection.id c1 = Collection.id c
          /\ run (access_shared_collection (Share.share_token sh)) d
             = (d, Returned
                     (VDict [("collection",
                              VDict [("id", VStr (Collection.id c1));
                                     ("name", VStr (Collection.name c1));
                                     ("description", opt_str (Collection.description c1));
                                     ("created_at", VTime (Collection.created_at c1))]);
                             ("records", VList (map summary (filter member (records d))))])))
  /\ (forall r (v : Id),
        In r (records d) -> Record.user_id r = v ->
        (Record.collection_id r = Some (Collection.id c) <-> member r = true)
        /\ (Record.collection_id r = Some (Collection.id c) ->
            In r (filter member (records d))
            /\ In (summary r) (map summary (filter member (records d))))).
Proof.
  intros Hc member cleared summary.
  destruct (find_owned_some (collections d) c Hc) as (c0 & F & _ & _).
  assert (M : forall r, Record.collection_id r = Some (Collection.id c) <-> member r = true)
    by (intros r; symmetry; apply (in_collection_true (Collection.id c) r)).
  split; [|split; [|split]].
  - apply (get_records_run d _ _ c0 F).
  - eexists. split; [apply (delete_collection_run d _ _ c0 F)|]. simpl.
    split; [unfold update_where; apply length_map|].
    intros i x Hi. rewrite nth_error_update_where, Hi. reflexivity.
  - intros sh Hsh Ha Hcid Hu.
    rewrite access_shared_run. unfold shared_view.
    rewrite (find_live_share (shares d) sh (Collection.id c) Hsh Ha Hcid Hu).
    destruct (find (share_target sh) (collections d)) as [c1|] eqn:G.
    + apply find_some in G as [H1 T1].
      apply (share_target_id sh (Collection.id c) c1 Hcid) in T1.
      exists c1. split; [assumption|]. split; [assumption|].
      unfold share_member. rewrite Hcid. reflexivity.
    + apply find_none with (x := c) in G; [|assumption].
      unfold share_target in G. rewrite Hcid, String.eqb_refl in G. discriminate G.
  - intros r v Hr _. split; [apply M|].
    intros Hm. assert (In r (filter member (records d)))
      by (apply filter_In; split; [assumption|now apply M]).
    split; [assumption|]. now apply in_map.
Qed.

Lemma membership_queries_ignore_record_owner_witness :
  run (get_records_from_collection "c1" "alice") sample_db
  = (sample_db,
     Returned [Record.mk "r1" "alice" "a.txt" "hi" (Some "c1") 20;
               Record.mk "r2" "bob" "b.txt" "yo" (Some "c1") 21])
  /\ (exists d',
        run (delete_collection "c1" "alice") sample_db
        = (d', Returned (message "Collection deleted successfully"))
        /\ nth_error (records d') 1 = Some (Record.mk "r2" "bob" "b.txt" "yo" None 21)
        /\ nth_error (records d') 2
           = Some (Record.mk "r3" "alice" "c.txt" "zz" (Some "c3") 22))
  /\ (exists c1,
        In c1 (collections sample_db) /\ Collection.id c1 = "c1"
        /\ run (access_shared_collection "tok-live") sample_db
           = (sample_db,
              Returned
                (VDict [("collection",
                         VDict [("id", VStr (Collection.id c1));
                                ("name", VStr (Collection.name c1));
                                ("description", opt_str (Collection.description c1));
                                ("created_at", VTime (Collection.created_at c1))]);
                        ("records",
                         VList [VDict [("id", VStr "r1"); ("filename", VStr "a.txt");
                                       ("content", VStr "hi"); ("created_at", VTime 20)];
                                VDict [("id", VStr "r2"); ("filename", VStr "b.txt");
                                       ("content", VStr "yo"); ("created_at", VTime 21)]])]))).
Proof.
  destruct (membership_queries_ignore_record_owner sample_db
              (Collection.mk "c1" "alice" "Work" (Some "tasks") 10))
    as (E1 & (d' & E2 & _ & N2) & S3 & _).
  - simpl. left. reflexivity.
  - split; [exact E1|].
    split; [exists d'; split; [exact E2|split]|].
    + exact (N2 1%nat (Record.mk "r2" "bob" "b.txt" "yo" (Some "c1") 21) eq_refl).
    + exact (N2 2%nat (Record.mk "r3" "alice" "c.txt" "zz" (Some "c3") 22) eq_refl).
    + apply (S3 (Share.mk "tok-live" true (Some "c1"))).
      * simpl. left. reflexivity.
      * reflexivity.
      * reflexivity.
      * simpl. intros sh' [<-|[<-|[<-|[]]]] T; try reflexivity; discriminate T.
Defined.

(** * Further properties of the router *)

(** ** What requests leave alone *)

(** X1. A request on one of the four GET routes never writes: whatever it
    answers, the session (committed store and working copy) is the one it
    started from. *)
Theorem get_routes_never_write (req : Request) (s : Session) :
  is_get_route req = true -> fst (dispatch req s) = s.
Proof.
  destruct req; simpl; try discriminate; intros _;
    unfold_handlers; unfold_session; case_goal_lookups; reflexivity.
Qed.

Lemma get_routes_never_write_witness :
  fst (dispatch (ListRecordsReq "c1" "alice") (open_session sample_db))
  = open_session sample_db.
Proof.
  apply (get_routes_never_write (ListRecordsReq "c1" "alice") (open_session sample_db)).
  reflexivity.
Defined.

(** X2. No request of the router touches the share table: shares are neither
    created, nor revoked, nor removed, not even when the collection they
    reference is deleted. *)
Theorem shares_never_written (req : Request) (d : Database) :
  shares (fst (serve req d)) = shares d.
Proof.
  destruct req; unfold_handlers; unfold_session; case_goal_lookups; reflexivity.
Qed.

Lemma serve_keeps_pk_unique_witness :
  pk_unique
    (fst (serve (CreateReq "c9" 30%Z (CollectionCreate.mk "Work" None) "bob") sample_db)).
Proof.
  apply (serve_keeps_pk_unique
           (CreateReq "c9" 30%Z (CollectionCreate.mk "Work" None) "bob") sample_db).
  - split; simpl; repeat constructor; simpl; intuition discriminate.
  - intros new_id now body u E. injection E as <- _ _ _.
    unfold fresh_collection_id. simpl. intuition discriminate.
Defined.

(** ** Membership references stay meaningful *)

Section Membership.
Variables (cs : list Collection.t) (rs : list Record.t) (ss : list Share.t).
Hypothesis consistent : membership_consistent (mkDatabase cs rs ss).

Lemma consistent_add_collection (c : Collection.t) :
  membership_consistent (mkDatabase (cs ++ [c]) rs ss).
Proof.
  intros r cid Hr Hm. destruct (consistent r cid Hr Hm) as (c0 & H0 & E).
  exists c0. split; [apply in_or_app; now left|exact E].
Qed.

Lemma consistent_update_collections (q : Collection.t -> bool)
    (f : Collection.t -> Collection.t) :
  (forall x, Collection.id (f x) = Collection.id x) ->
  (forall x, Collection.user_id (f x) = Collection.user_id x) ->
  membership_consistent (mkDatabase (update_where q f cs) rs ss).
Proof.
  intros Hid Hu r cid Hr Hm.
  destruct (consistent r cid Hr Hm) as (c0 & H0 & Ei & Eu).
  exists (if q c0 then f c0 else c0). split.
  - unfold update_where. simpl. apply in_map_iff. now exists c0.
  - destruct (q c0); rewrite ?Hid, ?Hu; auto.
Qed.

Lemma consistent_clear_records (q : Record.t -> bool) :
  membership_consistent
    (mkDatabase cs (update_where q (Record.set_collection_id None) rs) ss).
Proof.
  intros r cid Hr Hm. simpl in Hr. unfold update_where in Hr.
  apply in_map_iff in Hr as (x & <- & Hx).
  destruct (q x); [discriminate Hm|]. now apply consistent.
Qed.

Lemma consistent_link (c : Collection.t) (r : Record.t) :
  NoDup (map Record.id rs) ->
  In c cs -> In r rs -> Collection.user_id c = Record.user_id r ->
  membership_consistent
    (mkDatabase cs
       (update_where (fun x => Record.id x =? Record.id r)
          (Record.set_collection_id (Some (Collection.id c))) rs) ss).
Proof.
  intros ND Hc Hr Hu r' cid Hr' Hm. simpl in Hr'. unfold update_where in Hr'.
  apply in_map_iff in Hr' as (x & <- & Hx).
  destruct (String.eqb_spec (Record.id x) (Record.id r)) as [E|_].
  - assert (x = r) by (apply (key_determines_row Record.id rs); auto).
    subst x. simpl in Hm. injection Hm as <-. exists c. now repeat split.
  - now apply consistent.
Qed.

Lemma consistent_delete (cid : Id) :
  membership_consistent
    (mkDatabase (delete_where (fun c => Collection.id c =? cid) cs)
       (update_where (in_collection cid) (Record.set_collection_id None) rs) ss).
Proof.
  intros r' cid' Hr' Hm. simpl in Hr'. unfold update_where in Hr'.
  apply in_map_iff in Hr' as (x & <- & Hx).
  destruct (in_collection cid x) eqn:Q; [discriminate Hm|].
  destruct (consistent x cid' Hx Hm) as (c0 & H0 & Ei & Eu).
  exists c0. split; [|now split].
  simpl. apply in_delete_where. split; [assumption|].
  intros E. assert (in_collection cid x = true)
    by (apply in_collection_true; congruence).
  congruence.
Qed.
End Membership.

(** X4. Membership references stay meaningful.  On a store with unique
    primary keys in which every membership reference names an existing
    collection owned by the owner of the record, every request leaves a store
    with that property: linking demands one caller for both sides, deleting
    clears the references to what it deletes, and no update changes an id or
    an owner. *)
Theorem serve_keeps_membership_consistent (req : Request) (d : Database) :
  pk_unique d -> membership_consistent d ->
  membership_consistent (fst (serve req d)).
Proof.
  destruct d as [cs rs ss]. intros [NDc NDr] H. simpl in NDc, NDr.
  destruct req; unfold_handlers; unfold_session; case_goal_lookups;
    try exact H;
    try (apply consistent_add_collection; exact H);
    try (repeat (apply consistent_update_collections; try reflexivity); exact H);
    try (apply consistent_clear_records; exact H).
  - (* link *)
    apply find_some in F as [Hc Oc]. apply owned_collection_true in Oc as [<- Ou].
    apply find_some in F0 as [Hr Or]. apply owned_record_true in Or as [_ Ov].
    apply consistent_link; auto. congruence.
  - (* delete *)
    apply find_some in F as [_ Oc]. apply owned_collection_true in Oc as [-> _].
    now apply consistent_delete.
Qed.

Lemma tidy_db_consistent : pk_unique tidy_db /\ membership_consistent tidy_db.
Proof.
  split.
  - split; simpl; repeat constructor; simpl; intuition discriminate.
  - intros r cid Hr Hm. simpl in Hr.
    destruct Hr as [<-|[<-|[<-|[]]]]; simpl in Hm; try discriminate Hm;
      injection Hm as <-.
    + exists (Collection.mk "c1" "alice" "Work" (Some "tasks") 10). simpl. tauto.
    + exists (Collection.mk "c2" "bob" "Home" None 11). simpl. tauto.
Defined.

Lemma serve_keeps_membership_consistent_witness :
  membership_consistent (fst (serve (LinkReq "c3" "r4" "alice") tidy_db)).
Proof.
  apply (serve_keeps_membership_consistent (LinkReq "c3" "r4" "alice") tidy_db).
  - apply tidy_db_consistent.
  - apply tidy_db_consistent.
Defined.

(** ** Requests stay within the caller's rows *)

Lemma filter_update_where_skip {R} (p q : R -> bool) (f : R -> R) (rows : list R) :
  (forall x, In x rows -> q x = true -> p x = false /\ p (f x) = false) ->
  filter p (update_where q f rows) = filter p rows.
Proof.
  unfold update_where. induction rows as [|z rows IH]; simpl; intros H; [reflexivity|].
  rewrite IH by (intros x Hx; apply H; now right).
  destruct (q z) eqn:Q; [|reflexivity].
  destruct (H z (or_introl eq_refl) Q) as [-> ->]. reflexivity.
Qed.

Lemma filter_delete_where_skip {R} (p q : R -> bool) (rows : list R) :
  (forall x, In x rows -> q x = true -> p x = false) ->
  filter p (delete_where q rows) = filter p rows.
Proof.
  unfold delete_where. induction rows as [|z rows IH]; simpl; intros H; [reflexivity|].
  rewrite <- IH by (intros x Hx; apply H; now right).
  destruct (q z) eqn:Q; simpl; [|reflexivity].
  now rewrite (H z (or_introl eq_refl) Q).
Qed.

Lemma same_pk_same_owner {R} (key owner : R -> Id) (rows : list R) (t : R) (u : Id) :
  NoDup (map key rows) -> In t rows -> owner t = u ->
  forall x, In x rows -> (key x =? key t) = true -> negb (owner x =? u) = false.
Proof.
  intros ND Ht Hu x Hx E. apply String.eqb_eq in E.
  assert (x = t) by (apply (key_determines_row key rows); auto).
  subst x. rewrite Hu, String.eqb_refl. reflexivity.
Qed.

Ltac owner_of_found :=
  repeat match goal with
  | F : find (owned_collection _ _) _ = Some _ |- _ =>
      apply find_some in F; destruct F as [? F];
      apply owned_collection_true in F; destruct F as [? ?]
  | F : find (owned_record _ _) _ = Some _ |- _ =>
      apply find_some in F; destruct F as [? F];
      apply owned_record_true in F; destruct F as [? ?]
  | F : find (fun r => owned_record _ _ r && in_collection _ r) _ = Some _ |- _ =>
      apply find_some in F; destruct F as [? F];
      apply andb_true_iff in F; destruct F as [F _];
      apply owned_record_true in F; destruct F as [? ?]
  end.

(** X5. A request never changes a collection of another user: on a store
    with unique primary keys, the collections not owned by the caller are,
    row for row, the same before and after the request.  The same holds for
    the records not owned by the caller, for every request but the deletion
    of a collection. *)
Theorem foreign_rows_untouched (req : Request) (d : Database) (u : Id) :
  pk_unique d -> request_user req = Some u ->
  foreign_collections u (fst (serve req d)) = foreign_collections u d
  /\ ((forall cid, req <> DeleteReq cid u) ->
      foreign_records u (fst (serve req d)) = foreign_records u d).
Proof.
  destruct d as [cs rs ss]. intros [NDc NDr] Hu. simpl in NDc, NDr.
  unfold foreign_collections, foreign_records.
  destruct req; simpl in Hu; try discriminate Hu; injection Hu as ->;
    unfold_handlers; unfold_session; case_goal_lookups;
    rewrite ?update_where_twice by reflexivity;
    try (split; reflexivity);
    try (split; [|reflexivity]; rewrite filter_app; simpl;
         rewrite String.eqb_refl; simpl; apply app_nil_r);
    owner_of_found.
  1-8: split; [|reflexivity]; apply filter_update_where_skip; intros x Hx Q;
       split; simpl;
       exact (same_pk_same_owner Collection.id Collection.user_id cs t u NDc
                ltac:(assumption) ltac:(assumption) x Hx Q).
  1-2: split; [reflexivity|]; intros _; apply filter_update_where_skip; intros x Hx Q;
       split; simpl;
       exact (same_pk_same_owner Record.id Record.user_id rs t0 u NDr
                ltac:(assumption) ltac:(assumption) x Hx Q).
  split.
  - apply filter_delete_where_skip. intros x Hx Q.
    exact (same_pk_same_owner Collection.id Collection.user_id cs t u NDc
             ltac:(assumption) ltac:(assumption) x Hx Q).
  - intros N. now destruct (N collection_id).
Qed.

Lemma foreign_rows_untouched_witness :
  foreign_collections "alice" (fst (serve (UnlinkReq "c1" "r1" "alice") sample_db))
  = foreign_collections "alice" sample_db
  /\ ((forall cid, UnlinkReq "c1" "r1" "alice" <> DeleteReq cid "alice") ->
      foreign_records "alice" (fst (serve (UnlinkReq "c1" "r1" "alice") sample_db))
      = foreign_records "alice" sample_db).
Proof.
  apply (foreign_rows_untouched (UnlinkReq "c1" "r1" "alice") sample_db "alice").
  - split; simpl; repeat constructor; simpl; intuition discriminate.
  - reflexivity.
Defined.

Example delete_reaches_foreign_record :
  foreign_records "alice" (fst (serve (DeleteReq "c1" "alice") sample_db))
  <> foreign_records "alice" sample_db.
Proof. simpl. discriminate. Qed.

(** ** Non-owners and deleted ids *)

(** X6. On every route with a collection id, a caller who does not own the
    collection gets the 404 "Collection not found" and the store stays as it
    is: with unique primary keys, a collection of somebody else cannot be
    read, replaced, patched, listed, linked to, unlinked from or deleted. *)
Theorem foreign_collection_is_not_found
    (req : Request) (d : Database) (c : Collection.t) (v : Id) :
  pk_unique d -> In c (collections d) ->
  request_collection req = Some (Collection.id c) ->
  request_user req = Some v -> v <> Collection.user_id c ->
  serve req d = (d, Raised collection_missing).
Proof.
  intros [ND _] Hc Hr Hu Hv.
  pose proof (find_foreign_collection d c v ND Hc Hv) as F.
  destruct req; simpl in Hr, Hu; try discriminate Hr;
    injection Hr as ->; injection Hu as ->;
    unfold_handlers; unfold_session; rewrite F; reflexivity.
Qed.

Lemma foreign_collection_is_not_found_witness :
  serve (DeleteReq "c2" "alice") sample_db = (sample_db, Raised collection_missing).
Proof.
  apply (foreign_collection_is_not_found (DeleteReq "c2" "alice") sample_db
           (Collection.mk "c2" "bob" "Home" None 11) "alice").
  - split; simpl; repeat constructor; simpl; intuition discriminate.
  - simpl. right. left. reflexivity.
  - reflexivity.
  - reflexivity.
  - simpl. discriminate.
Defined.

(** X7. A deleted collection id is dead.  After a successful
    [delete_collection], every request that names this id, by whatever
    caller and on whatever route, raises the 404 "Collection not found" and
    leaves the store as the deletion left it; in particular a second
    deletion fails. *)
Theorem deleted_collection_is_gone
    (d d1 : Database) (cid u : Id) (m : value) (req : Request) :
  run (delete_collection cid u) d = (d1, Returned m) ->
  request_collection req = Some cid ->
  serve req d1 = (d1, Raised collection_missing).
Proof.
  intros E Hr.
  destruct (find (owned_collection cid u) (collections d)) as [c0|] eqn:F.
  - rewrite (delete_collection_run d cid u c0 F) in E. injection E as <- _.
    assert (G : forall v,
               find (owned_collection cid v)
                 (delete_where (fun x => Collection.id x =? cid) (collections d)) = None).
    { intros v. apply find_absent_collection.
      intros c' Hc'. now apply in_delete_where in Hc'. }
    destruct req; simpl in Hr; try discriminate Hr; injection Hr as ->;
      unfold_handlers; unfold_session; rewrite G; reflexivity.
  - unfold delete_collection in E. unfold_session. rewrite F in E. discriminate E.
Qed.

Lemma deleted_collection_is_gone_witness :
  serve (DeleteReq "c1" "alice") (fst (run (delete_collection "c1" "alice") sample_db))
  = (fst (run (delete_collection "c1" "alice") sample_db), Raised collection_missing).
Proof.
  apply (deleted_collection_is_gone sample_db _ "c1" "alice"
           (message "Collection deleted successfully") (DeleteReq "c1" "alice")).
  - reflexivity.
  - reflexivity.
Defined.

(** ** Shares and the owner's view *)

Lemma share_target_true (sh : Share.t) (cid : Id) (c : Collection.t) :
  Share.collection_id sh = Some cid ->
  share_target sh c = true <-> Collection.id c = cid.
Proof. intros E. unfold share_target. rewrite E. apply String.eqb_eq. Qed.

(** X8. A share outlives its collection.  Let a token be carried by one
    share, active and referencing a collection.  Before the deletion of
    that collection the token opens the shared view; after it the share is
    still in the store, still active, and the token gets the 404 "Collection
    not found", not the 404 of an invalid link. *)
Theorem share_outlives_collection
    (d d1 : Database) (cid u : Id) (m : value) (sh : Share.t) :
  run (delete_collection cid u) d = (d1, Returned m) ->
  In sh (shares d) -> Share.is_active sh = true -> Share.collection_id sh = Some cid ->
  (forall sh', In sh' (shares d) ->
               Share.share_token sh' = Share.share_token sh -> sh' = sh) ->
  (exists v, run (access_shared_collection (Share.share_token sh)) d = (d, Returned v))
  /\ In sh (shares d1)
  /\ run (access_shared_collection (Share.share_token sh)) d1
     = (d1, Raised collection_missing).
Proof.
  intros E Hsh Ha Hc Hu.
  pose proof (find_live_share (shares d) sh cid Hsh Ha Hc Hu) as L.
  destruct (find (owned_collection cid u) (collections d)) as [c0|] eqn:F.
  - rewrite (delete_collection_run d cid u c0 F) in E. injection E as <- _.
    apply find_some in F as [H0 O0]. apply owned_collection_true in O0 as [I0 _].
    rewrite !access_shared_run. unfold shared_view. simpl. rewrite L.
    split; [|split; [assumption|]].
    + destruct (find (share_target sh) (collections d)) as [c1|] eqn:G.
      * eexists. reflexivity.
      * apply find_none with (x := c0) in G; [|assumption].
        assert (share_target sh c0 = true) by now apply (share_target_true sh cid).
        congruence.
    + rewrite find_no_row; [reflexivity|].
      intros y Hy. apply in_delete_where in Hy as [_ Ny].
      destruct (share_target sh y) eqn:T; [|reflexivity].
      now apply (share_target_true sh cid) in T.
  - unfold delete_collection in E. unfold_session. rewrite F in E. discriminate E.
Qed.

Lemma share_outlives_collection_witness :
  run (access_shared_collection "tok-live")
      (fst (run (delete_collection "c1" "alice") sample_db))
  = (fst (run (delete_collection "c1" "alice") sample_db), Raised collection_missing).
Proof.
  refine (proj2 (proj2 (share_outlives_collection sample_db _ "c1" "alice"
                          (message "Collection deleted successfully")
                          (Share.mk "tok-live" true (Some "c1"))
                          eq_refl _ eq_refl eq_refl _))).
  - simpl. left. reflexivity.
  - simpl. intros sh' [<-|[<-|[<-|[]]]] T; try reflexivity; discriminate T.
Defined.

(** X9. The shared view is the owner's view, reduced.  With unique primary
    keys, when a token is carried by one share, active and referencing the
    collection [c], the response to the token is built from exactly what the
    owner of [c] gets from [get_collection] and
    [get_records_from_collection]: the summary of that collection and the
    summaries of those records, in the same order. *)
Theorem shared_view_is_owner_view (d : Database) (c : Collection.t) (sh : Share.t) :
  pk_unique d -> In c (collections d) ->
  In sh (shares d) -> Share.is_active sh = true ->
  Share.collection_id sh = Some (Collection.id c) ->
  (forall sh', In sh' (shares d) ->
               Share.share_token sh' = Share.share_token sh -> sh' = sh) ->
  exists c' l,
    run (get_collection (Collection.id c) (Collection.user_id c)) d = (d, Returned c')
    /\ run (get_records_from_collection (Collection.id c) (Collection.user_id c)) d
       = (d, Returned l)
    /\ run (access_shared_collection (Share.share_token sh)) d
       = (d, Returned (VDict [("collection", collection_summary c');
                              ("records", VList (map record_summary l))])).
Proof.
  intros [ND _] Hc Hsh Ha Hcid Hu.
  pose proof (find_owned_collection d c ND Hc) as F.
  exists c. eexists. split; [|split].
  - unfold run. now rewrite (get_collection_found (open_session d) _ _ c).
  - apply (get_records_run d _ _ c F).
  - rewrite access_shared_run. unfold shared_view.
    rewrite (find_live_share (shares d) sh (Collection.id c) Hsh Ha Hcid Hu).
    rewrite (find_the_row Collection.id (collections d) (share_target sh) c); auto.
    + unfold share_member. rewrite Hcid. reflexivity.
    + now apply (share_target_true sh (Collection.id c)).
    + intros y Hy. now apply (share_target_true sh (Collection.id c)) in Hy.
Qed.

Lemma shared_view_is_owner_view_witness :
  exists c' l,
    run (get_collection "c1" "alice") sample_db = (sample_db, Returned c')
    /\ run (get_records_from_collection "c1" "alice") sample_db = (sample_db, Returned l)
    /\ run (access_shared_collection "tok-live") sample_db
       = (sample_db, Returned (VDict [("collection", collection_summary c');
                                      ("records", VList (map record_summary l))])).
Proof.
  apply (shared_view_is_owner_view sample_db
           (Collection.mk "c1" "alice" "Work" (Some "tasks") 10)
           (Share.mk "tok-live" true (Some "c1"))).
  - split; simpl; repeat constructor; simpl; intuition discriminate.
  - simpl. left. reflexivity.
  - simpl. left. reflexivity.
  - reflexivity.
  - reflexivity.
  - simpl. intros sh' [<-|[<-|[<-|[]]]] T; try reflexivity; discriminate T.
Defined.

(** ** Creating and listing *)

Lemma get_all_collections_run (d : Database) (u : Id) :
  run (get_all_collections u) d
  = (d, Returned (filter (fun c => Collection.user_id c =? u) (collections d))).
Proof. reflexivity. Qed.

Lemma filter_none {R} (p : R -> bool) (rows : list R) :
  (forall x, In x rows -> p x = false) -> filter p rows = [].
Proof.
  induction rows as [|z rows IH]; simpl; intros H; [reflexivity|].
  rewrite (H z) by auto. apply IH. intros; apply H; auto.
Qed.

(** X10. [get_all_collections] answers with the caller's collections and
    nothing else, and a creation shows up there at once: after
    [create_collection] by [u] the list of [u] is the former list followed by
    the new collection, while the list of any other user is what it was. *)
Theorem create_then_list_all (d : Database) new_id now body (u : Id) :
  fresh_collection_id new_id d ->
  exists c d1 l,
    run (create_collection new_id now body u) d = (d1, Returned c)
    /\ run (get_all_collections u) d = (d, Returned l)
    /\ (forall x, In x l <-> In x (collections d) /\ Collection.user_id x = u)
    /\ run (get_all_collections u) d1 = (d1, Returned (l ++ [c]))
    /\ forall v, v <> u ->
         snd (run (get_all_collections v) d1) = snd (run (get_all_collections v) d).
Proof.
  intros Hf. eexists; eexists; eexists.
  split; [apply (create_collection_spec d new_id now body u Hf)|].
  split; [apply get_all_collections_run|].
  split; [intros x; rewrite filter_In, String.eqb_eq; tauto|].
  rewrite !get_all_collections_run. simpl. split.
  - rewrite filter_app. simpl. now rewrite String.eqb_refl.
  - intros v Hv. rewrite filter_app. simpl.
    destruct (String.eqb_spec u v) as [E|_]; [now destruct Hv|].
    now rewrite app_nil_r.
Qed.

Lemma create_then_list_all_witness :
  exists c d1 l,
    run (create_collection "c9" 30%Z (CollectionCreate.mk "New" None) "bob") sample_db
    = (d1, Returned c)
    /\ run (get_all_collections "bob") sample_db = (sample_db, Returned l)
    /\ (forall x, In x l <-> In x (collections sample_db) /\ Collection.user_id x = "bob")
    /\ run (get_all_collections "bob") d1 = (d1, Returned (l ++ [c]))
    /\ forall v, v <> "bob" ->
         snd (run (get_all_collections v) d1) = snd (run (get_all_collections v) sample_db).
Proof.
  apply (create_then_list_all sample_db "c9" 30%Z (CollectionCreate.mk "New" None) "bob").
  unfold fresh_collection_id. simpl. intuition discriminate.
Defined.

(** X11. A new collection starts empty.  On a store whose membership
    references all name existing collections (of whatever owner), the
    collection just created under a fresh id has no record:
    [get_records_from_collection] returns the empty list to its creator. *)
Theorem new_collection_has_no_records (d : Database) new_id now body (u : Id) :
  references_resolve d -> fresh_collection_id new_id d ->
  exists c d1,
    run (create_collection new_id now body u) d = (d1, Returned c)
    /\ run (get_records_from_collection (Collection.id c) u) d1 = (d1, Returned []).
Proof.
  intros Hm Hf. eexists; eexists.
  split; [apply (create_collection_spec d new_id now body u Hf)|].
  set (c := Collection.mk new_id u _ _ now). set (d1 := with_collections _ d).
  destruct (find_some_owned_collection (collections d1) new_id u c) as [c0 F];
    [simpl; apply in_or_app; right; now left|reflexivity|reflexivity|].
  change (Collection.id c) with new_id.
  rewrite (get_records_run d1 _ _ c0 F). simpl. f_equal. f_equal.
  apply filter_none. intros r Hr.
  destruct (in_collection new_id r) eqn:Q; [|reflexivity].
  apply in_collection_true in Q. destruct (Hm r new_id Hr Q) as (c1 & H1 & E1).
  exfalso. apply Hf. rewrite <- E1. now apply in_map.
Qed.

Lemma sample_db_references_resolve : references_resolve sample_db.
Proof.
  intros r cid Hr Hm. simpl in Hr.
  destruct Hr as [<-|[<-|[<-|[<-|[]]]]]; simpl in Hm; try discriminate Hm;
    injection Hm as <-.
  - exists (Collection.mk "c1" "alice" "Work" (Some "tasks") 10). simpl. tauto.
  - exists (Collection.mk "c1" "alice" "Work" (Some "tasks") 10). simpl. tauto.
  - exists (Collection.mk "c3" "alice" "Misc" None 12). simpl. tauto.
Defined.

Lemma new_collection_has_no_records_witness :
  exists c d1,
    run (create_collection "c9" 30%Z (CollectionCreate.mk "New" None) "bob") sample_db
    = (d1, Returned c)
    /\ run (get_records_from_collection (Collection.id c) "bob") d1 = (d1, Returned []).
Proof.
  apply (new_collection_has_no_records sample_db "c9" 30%Z
           (CollectionCreate.mk "New" None) "bob").
  - apply sample_db_references_resolve.
  - unfold fresh_collection_id. simpl. intuition discriminate.
Defined.

(** ** Linking, unlinking and listing *)

Lemma add_record_success (d d1 : Database) (cid rid u : Id) (m : value) :
  run (add_record_to_collection cid rid u) d = (d1, Returned m) ->
  exists c r,
    find (owned_collection cid u) (collections d) = Some c
    /\ find (owned_record rid u) (records d) = Some r
    /\ d1 = with_records
              (update_where (fun x => Record.id x =? rid)
                 (Record.set_collection_id (Some cid))) d.
Proof.
  rewrite add_record_run. unfold linked.
  destruct (find (owned_collection cid u) (collections d)) as [c|]; [|discriminate].
  destruct (find (owned_record rid u) (records d)) as [r|]; [|discriminate].
  intros E. injection E as <- _. now exists c, r.
Qed.

Lemma remove_record_success (d d1 : Database) (cid rid u : Id) (m : value) :
  run (remove_record_from_collection cid rid u) d = (d1, Returned m) ->
  exists c r,
    find (owned_collection cid u) (collections d) = Some c
    /\ find (member_record cid rid u) (records d) = Some r
    /\ d1 = with_records
              (update_where (fun x => Record.id x =? rid)
                 (Record.set_collection_id None)) d.
Proof.
  rewrite remove_record_run. unfold unlinked.
  destruct (find (owned_collection cid u) (collections d)) as [c|]; [|discriminate].
  destruct (find (member_record cid rid u) (records d)) as [r|]; [|discriminate].
  intros E. injection E as <- _. now exists c, r.
Qed.

Lemma relink_same (cid : Id) (x : Record.t) :
  Record.collection_id x = Some cid -> Record.set_collection_id (Some cid) x = x.
Proof. destruct x; simpl; intros ->; reflexivity. Qed.

Lemma clear_unlinked (x : Record.t) :
  Record.collection_id x = None -> Record.set_collection_id None x = x.
Proof. destruct x; simpl; intros ->; reflexivity. Qed.

(** X12. Linking shows in the listing.  After a successful
    [add_record_to_collection] the caller's listing of the collection holds
    a record with the given id, owned by the caller, and still holds every
    record it held before. *)
Theorem link_then_listed (d d1 : Database) (cid rid u : Id) (m : value) :
  run (add_record_to_collection cid rid u) d = (d1, Returned m) ->
  exists l0 l r,
    run (get_records_from_collection cid u) d = (d, Returned l0)
    /\ run (get_records_from_collection cid u) d1 = (d1, Returned l)
    /\ In r l /\ Record.id r = rid /\ Record.user_id r = u
    /\ forall x, In x l0 -> In x l.
Proof.
  intros E. destruct (add_record_success d d1 cid rid u m E) as (c & r & F & G & ->).
  exists (filter (in_collection cid) (records d)).
  eexists. exists (Record.set_collection_id (Some cid) r).
  split; [apply (get_records_run d cid u c F)|].
  split; [apply (get_records_run (with_records _ d) cid u c F)|].
  apply find_some in G as [Hr Or]. apply owned_record_true in Or as [Ri Ru].
  simpl. repeat split; auto.
  - apply filter_In. split.
    + unfold update_where. apply in_map_iff. exists r.
      split; [|assumption]. now rewrite Ri, String.eqb_refl.
    + apply in_collection_true. reflexivity.
  - intros x Hx. apply filter_In in Hx as [Hx Mx]. apply filter_In.
    split; [|assumption].
    unfold update_where. apply in_map_iff. exists x. split; [|assumption].
    destruct (Record.id x =? rid); [|reflexivity].
    apply relink_same. now apply in_collection_true.
Qed.

Lemma link_then_listed_witness :
  exists l0 l r,
    run (get_records_from_collection "c3" "alice") sample_db = (sample_db, Returned l0)
    /\ run (get_records_from_collection "c3" "alice")
           (fst (run (add_record_to_collection "c3" "r4" "alice") sample_db))
       = (fst (run (add_record_to_collection "c3" "r4" "alice") sample_db), Returned l)
    /\ In r l /\ Record.id r = "r4" /\ Record.user_id r = "alice"
    /\ forall x, In x l0 -> In x l.
Proof.
  apply (link_then_listed sample_db _ "c3" "r4" "alice"
           (message "Record added to collection successfully")).
  reflexivity.
Defined.

Lemma filter_after_clear (cid rid : Id) (rows : list Record.t) :
  filter (in_collection cid)
    (update_where (fun x => Record.id x =? rid) (Record.set_collection_id None) rows)
  = filter (fun r => negb (Record.id r =? rid)) (filter (in_collection cid) rows).
Proof.
  unfold update_where. induction rows as [|z rows IH]; simpl; [reflexivity|].
  rewrite IH. destruct (Record.id z =? rid) eqn:Q; simpl.
  - destruct (in_collection cid z); simpl; rewrite ?Q; reflexivity.
  - destruct (in_collection cid z); simpl; rewrite ?Q; reflexivity.
Qed.

(** X13. Unlinking shows in the listing.  After a successful
    [remove_record_from_collection] the caller's listing of the collection
    is the former listing without the record of the given id; the other
    records keep their places. *)
Theorem unlink_then_unlisted (d d1 : Database) (cid rid u : Id) (m : value) :
  run (remove_record_from_collection cid rid u) d = (d1, Returned m) ->
  exists l0,
    run (get_records_from_collection cid u) d = (d, Returned l0)
    /\ run (get_records_from_collection cid u) d1
       = (d1, Returned (filter (fun r => negb (Record.id r =? rid)) l0))
    /\ exists r, In r l0 /\ Record.id r = rid.
Proof.
  intros E. destruct (remove_record_success d d1 cid rid u m E) as (c & r & F & G & ->).
  exists (filter (in_collection cid) (records d)).
  split; [apply (get_records_run d cid u c F)|].
  split.
  - rewrite (get_records_run (with_records _ d) cid u c F). simpl.
    now rewrite filter_after_clear.
  - apply find_some in G as [Hr Mr]. apply member_record_true in Mr as (Ri & _ & Rc).
    exists r. split; [|assumption]. apply filter_In. split; [assumption|].
    now apply in_collection_true.
Qed.

Lemma unlink_then_unlisted_witness :
  exists l0,
    run (get_records_from_collection "c1" "alice") sample_db = (sample_db, Returned l0)
    /\ run (get_records_from_collection "c1" "alice")
           (fst (run (remove_record_from_collection "c1" "r1" "alice") sample_db))
       = (fst (run (remove_record_from_collection "c1" "r1" "alice") sample_db),
          Returned (filter (fun r => negb (Record.id r =? "r1")) l0))
    /\ exists r, In r l0 /\ Record.id r = "r1".
Proof.
  apply (unlink_then_unlisted sample_db _ "c1" "r1" "alice"
           (message "Record removed from collection successfully")).
  reflexivity.
Defined.

(** X14. Unlinking is not idempotent.  Repeating a successful
    [remove_record_from_collection] raises the 404 "Record not found in this
    collection" and leaves the store as the first call left it. *)
Theorem unlink_twice_is_not_found (d d1 : Database) (cid rid u : Id) (m : value) :
  run (remove_record_from_collection cid rid u) d = (d1, Returned m) ->
  run (remove_record_from_collection cid rid u) d1 = (d1, Raised record_not_member).
Proof.
  intros E. destruct (remove_record_success d d1 cid rid u m E) as (c & r & F & G & ->).
  rewrite remove_record_run. unfold unlinked. simpl. rewrite F.
  rewrite find_no_row; [reflexivity|].
  intros y Hy. unfold update_where in Hy. apply in_map_iff in Hy as (x & <- & Hx).
  unfold member_record, owned_record, in_collection.
  destruct (Record.id x =? rid) eqn:Q; simpl.
  - apply andb_false_r.
  - now rewrite Q.
Qed.

Lemma unlink_twice_is_not_found_witness :
  run (remove_record_from_collection "c1" "r1" "alice")
      (fst (run (remove_record_from_collection "c1" "r1" "alice") sample_db))
  = (fst (run (remove_record_from_collection "c1" "r1" "alice") sample_db),
     Raised record_not_member).
Proof.
  apply (unlink_twice_is_not_found sample_db _ "c1" "r1" "alice"
           (message "Record removed from collection successfully")).
  reflexivity.
Defined.

(** X15. A record is in one collection at a time.  After a successful
    [add_record_to_collection] into a collection, no listing of any other
    collection, asked by whatever caller, holds a record with that id: linking
    moves the record. *)
Theorem link_moves_record
    (d d1 : Database) (cid rid u : Id) (m : value) (other v : Id) (l : list Record.t) :
  run (add_record_to_collection cid rid u) d = (d1, Returned m) ->
  other <> cid ->
  run (get_records_from_collection other v) d1 = (d1, Returned l) ->
  forall r, In r l -> Record.id r <> rid.
Proof.
  intros E Hne L. destruct (add_record_success d d1 cid rid u m E) as (c & r0 & F & G & ->).
  unfold get_records_from_collection in L. unfold_session.
  destruct (find (owned_collection other v) (collections d)); simpl in L; [|discriminate L].
  injection L as <-. intros r Hr. apply filter_In in Hr as [Hr Mr].
  unfold update_where in Hr. apply in_map_iff in Hr as (x & <- & Hx).
  destruct (String.eqb_spec (Record.id x) rid) as [Q|Q]; [|exact Q].
  apply in_collection_true in Mr. simpl in Mr. congruence.
Qed.

Lemma link_moves_record_witness :
  Forall (fun r => Record.id r <> "r1") [Record.mk "r2" "bob" "b.txt" "yo" (Some "c1") 21].
Proof.
  apply Forall_forall.
  apply (link_moves_record sample_db
           (fst (run (add_record_to_collection "c3" "r1" "alice") sample_db))
           "c3" "r1" "alice" (message "Record added to collection successfully")
           "c1" "alice").
  - reflexivity.
  - discriminate.
  - reflexivity.
Defined.

Lemma find_owned_record (rows : list Record.t) (r : Record.t) :
  NoDup (map Record.id rows) -> In r rows ->
  find (owned_record (Record.id r) (Record.user_id r)) rows = Some r.
Proof.
  intros ND Hr. apply find_the_row with (key := Record.id); auto.
  - now apply owned_record_true.
  - intros y Hy. now apply owned_record_true in Hy.
Qed.

Lemma find_member_record (rows : list Record.t) (cid : Id) (r : Record.t) :
  NoDup (map Record.id rows) -> In r rows -> Record.collection_id r = Some cid ->
  find (member_record cid (Record.id r) (Record.user_id r)) rows = Some r.
Proof.
  intros ND Hr Hc. apply find_the_row with (key := Record.id); auto.
  - now apply member_record_true.
  - intros y Hy. now apply member_record_true in Hy.
Qed.

Lemma in_update_record (rows : list Record.t) (f : Record.t -> Record.t) (r : Record.t) :
  In r rows ->
  In (f r) (update_where (fun x => Record.id x =? Record.id r) f rows).
Proof.
  intros Hr. unfold update_where. apply in_map_iff. exists r.
  now rewrite String.eqb_refl.
Qed.

Lemma update_then_restore (rows : list Record.t) (r : Record.t) (a : option Id) :
  NoDup (map Record.id rows) -> In r rows ->
  update_where (fun x => Record.id x =? Record.id r)
    (Record.set_collection_id (Record.collection_id r))
    (update_where (fun x => Record.id x =? Record.id r) (Record.set_collection_id a) rows)
  = rows.
Proof.
  intros ND Hr. rewrite update_where_twice by reflexivity.
  apply update_where_fixed. intros x Hx Q. apply String.eqb_eq in Q.
  assert (x = r) by (apply (key_determines_row Record.id rows); auto).
  subst x. destruct r; reflexivity.
Qed.

(** X16. Link and unlink undo each other.  On a store with unique primary
    keys, for a collection and a record of the caller: if the record is in no
    collection, linking it and then unlinking it gives back the very store;
    if the record is in this collection, unlinking it and then linking it
    gives back the very store. *)
Theorem link_unlink_round_trip (d : Database) (c : Collection.t) (r : Record.t) :
  pk_unique d -> In c (collections d) -> In r (records d) ->
  Collection.user_id c = Record.user_id r ->
  let cid := Collection.id c in
  let rid := Record.id r in
  let u := Record.user_id r in
  (Record.collection_id r = None ->
   exists d1,
     run (add_record_to_collection cid rid u) d
     = (d1, Returned (message "Record added to collection successfully"))
     /\ run (remove_record_from_collection cid rid u) d1
        = (d, Returned (message "Record removed from collection successfully")))
  /\ (Record.collection_id r = Some cid ->
      exists d1,
        run (remove_record_from_collection cid rid u) d
        = (d1, Returned (message "Record removed from collection successfully"))
        /\ run (add_record_to_collection cid rid u) d1
           = (d, Returned (message "Record added to collection successfully"))).
Proof.
  destruct d as [cs rs ss]. intros [NDc NDr] Hc Hr Hu cid rid u.
  subst cid rid u. simpl in *.
  destruct (find_some_owned_collection cs _ _ c Hc eq_refl Hu) as [c0 F].
  pose proof (find_owned_record rs r NDr Hr) as G.
  split; intros Hm.
  - eexists. split.
    + rewrite add_record_run. unfold linked. simpl. rewrite F, G. reflexivity.
    + rewrite remove_record_run. unfold unlinked, with_records. simpl. rewrite F.
      rewrite (find_member_record _ (Collection.id c)
                 (Record.set_collection_id (Some (Collection.id c)) r));
        [|now rewrite keys_update_where|now apply in_update_record|reflexivity].
      simpl. f_equal. f_equal. rewrite <- Hm. now apply update_then_restore.
  - eexists. split.
    + rewrite remove_record_run. unfold unlinked. simpl. rewrite F.
      rewrite (find_member_record rs (Collection.id c) r NDr Hr Hm). reflexivity.
    + rewrite add_record_run. unfold linked, with_records. simpl. rewrite F.
      rewrite (find_owned_record _ (Record.set_collection_id None r));
        [|now rewrite keys_update_where|now apply in_update_record].
      simpl. f_equal. f_equal. rewrite <- Hm. now apply update_then_restore.
Qed.

Lemma link_unlink_round_trip_witness :
  exists d1,
    run (add_record_to_collection "c3" "r4" "alice") sample_db
    = (d1, Returned (message "Record added to collection successfully"))
    /\ run (remove_record_from_collection "c3" "r4" "alice") d1
       = (sample_db, Returned (message "Record removed from collection successfully")).
Proof.
  refine (proj1 (link_unlink_round_trip sample_db
                   (Collection.mk "c3" "alice" "Misc" None 12)
                   (Record.mk "r4" "alice" "d.txt" "ww" None 23) _ _ _ eq_refl) eq_refl).
  - split; simpl; repeat constructor; simpl; intuition discriminate.
  - simpl. right. right. left. reflexivity.
  - simpl. right. right. right. left. reflexivity.
Defined.

(** ** Replace and partial update, compared *)

Lemma update_collection_as_updated (d : Database) (cid u : Id) (body : CollectionCreate.t) :
  run (update_collection cid body u) d = updated (replace_fields body) cid u d.
Proof.
  unfold update_collection, updated, replace_fields. unfold_session.
  destruct (find (owned_collection cid u) (collections d)) as [c0|] eqn:F;
    simpl; [|reflexivity].
  apply find_some in F as [_ F]. apply owned_collection_true in F as [-> _].
  destruct (find _ _); reflexivity.
Qed.

Lemma update_collection_partial_as_updated
    (d : Database) (cid u : Id) (upd : CollectionUpdate.t) :
  run (update_collection_partial cid upd u) d = updated (patch_fields upd) cid u d.
Proof.
  unfold update_collection_partial, updated, patch_fields. unfold_session.
  destruct (find (owned_collection cid u) (collections d)) as [c0|] eqn:F;
    simpl; [|reflexivity].
  apply find_some in F as [_ F]. apply owned_collection_true in F as [-> _].
  destruct (CollectionUpdate.name upd) as [n|], (CollectionUpdate.description upd) as [x|];
    simpl; rewrite ?update_where_twice by reflexivity.
  - destruct (find _ _); reflexivity.
  - destruct (find _ _); reflexivity.
  - destruct (find _ _); reflexivity.
  - rewrite (update_where_fixed (collections d) _ (fun r => r)) by reflexivity.
    destruct d. simpl. destruct (find _ _); reflexivity.
Qed.

(** X17. A replace is a patch that names both fields: for a request with
    name and description, [update_collection] and
    [update_collection_partial] leave the same store and give the same
    answer, whatever the store and the caller. *)
Theorem replace_is_full_patch (d : Database) (cid u : Id) (n x : string) :
  run (update_collection cid (CollectionCreate.mk n (Some x)) u) d
  = run (update_collection_partial cid (CollectionUpdate.mk (Some n) (Some x)) u) d.
Proof.
  rewrite update_collection_as_updated, update_collection_partial_as_updated.
  reflexivity.
Qed.

(** X18. A patch that names no field is a read: on a store with unique
    primary keys, [update_collection_partial] with neither name nor
    description answers what [get_collection] answers, the 404 included, and
    leaves the store as it is. *)
Theorem empty_patch_is_get (d : Database) (cid u : Id) :
  pk_unique d ->
  run (update_collection_partial cid (CollectionUpdate.mk None None) u) d
  = run (get_collection cid u) d.
Proof.
  intros [ND _]. rewrite update_collection_partial_as_updated.
  unfold updated, patch_fields, run, get_collection. unfold_session.
  destruct (find (owned_collection cid u) (collections d)) as [c0|] eqn:F;
    simpl; [|reflexivity].
  rewrite (update_where_fixed (collections d) _ (fun r => r)) by reflexivity.
  apply find_some in F as [H0 F]. apply owned_collection_true in F as [<- _].
  rewrite (find_owned_collection_by_pk d c0 ND H0).
  destruct d; reflexivity.
Qed.

Lemma empty_patch_is_get_witness :
  run (update_collection_partial "c1" (CollectionUpdate.mk None None) "alice") sample_db
  = run (get_collection "c1" "alice") sample_db.
Proof.
  apply (empty_patch_is_get sample_db "c1" "alice").
  split; simpl; repeat constructor; simpl; intuition discriminate.
Defined.

Lemma updated_again (f : Collection.t -> Collection.t) (cid u : Id)
    (d d1 : Database) (c1 : Collection.t) :
  (forall x, Collection.id (f x) = Collection.id x) ->
  (forall x, Collection.user_id (f x) = Collection.user_id x) ->
  (forall x, f (f x) = f x) ->
  updated f cid u d = (d1, Returned c1) ->
  updated f cid u d1 = (d1, Returned c1).
Proof.
  intros Hid Hu Hf. unfold updated.
  destruct (find (owned_collection cid u) (collections d)) as [c0|] eqn:F;
    [|discriminate].
  intros E. injection E as <- <-. unfold with_collections. simpl.
  rewrite find_update_where
    by (intros r; unfold owned_collection; now rewrite Hid, Hu).
  rewrite F. simpl.
  rewrite update_where_idem by (auto; intros r; now rewrite Hid).
  apply find_some in F as [H0 F]. apply owned_collection_true in F as [E0 _].
  assert (G : exists row,
             find (fun x => Collection.id x =? cid)
               (update_where (fun x => Collection.id x =? cid) f (collections d))
             = Some row).
  { rewrite find_update_where by (intros r; now rewrite Hid).
    destruct (find (fun x => Collection.id x =? cid) (collections d)) as [c2|] eqn:G.
    - eexists. reflexivity.
    - apply find_none with (x := c0) in G; [|assumption].
      apply String.eqb_eq in E0. congruence. }
  destruct G as [row ->]. reflexivity.
Qed.

(** X19. Replace and partial update are idempotent: when
    [update_collection] (or [update_collection_partial]) succeeds, the same
    request on the resulting store succeeds with the same answer and leaves
    that store unchanged. *)
Theorem replace_and_patch_are_idempotent (d d1 : Database) (cid u : Id) (c1 : Collection.t) :
  (forall body,
     run (update_collection cid body u) d = (d1, Returned c1) ->
     run (update_collection cid body u) d1 = (d1, Returned c1))
  /\ (forall upd,
        run (update_collection_partial cid upd u) d = (d1, Returned c1) ->
        run (update_collection_partial cid upd u) d1 = (d1, Returned c1)).
Proof.
  split.
  - intros body. rewrite !update_collection_as_updated.
    apply updated_again; reflexivity.
  - intros upd. rewrite !update_collection_partial_as_updated.
    apply updated_again; intros x; unfold patch_fields;
      destruct (CollectionUpdate.name upd), (CollectionUpdate.description upd);
      reflexivity.
Qed.

Lemma replace_and_patch_are_idempotent_witness :
  run (update_collection "c1" (CollectionCreate.mk "Job" None) "alice")
      (fst (run (update_collection "c1" (CollectionCreate.mk "Job" None) "alice") sample_db))
  = (fst (run (update_collection "c1" (CollectionCreate.mk "Job" None) "alice") sample_db),
     Returned (Collection.mk "c1" "alice" "Job" None 10)).
Proof.
  apply (proj1 (replace_and_patch_are_idempotent sample_db _ "c1" "alice" _)).
  reflexivity.
Defined.

(** X20. Read your writes.  On a store with unique primary keys, when
    [update_collection] or [update_collection_partial] succeeds, a following
    [get_collection] by the same caller returns the very row the update
    returned, and that row is in the caller's [get_all_collections]. *)
Theorem update_then_get (d d1 : Database) (cid u : Id) (c1 : Collection.t) :
  pk_unique d ->
  (exists body, run (update_collection cid body u) d = (d1, Returned c1))
  \/ (exists upd, run (update_collection_partial cid upd u) d = (d1, Returned c1)) ->
  run (get_collection cid u) d1 = (d1, Returned c1)
  /\ exists l, run (get_all_collections u) d1 = (d1, Returned l) /\ In c1 l.
Proof.
  intros [ND _] H.
  assert (U : exists f,
             (forall x, Collection.id (f x) = Collection.id x)
             /\ (forall x, Collection.user_id (f x) = Collection.user_id x)
             /\ updated f cid u d = (d1, Returned c1)).
  { destruct H as [[body E]|[upd E]].
    - exists (replace_fields body). rewrite <- update_collection_as_updated.
      repeat split; auto.
    - exists (patch_fields upd). rewrite <- update_collection_partial_as_updated.
      repeat split; auto; intros x; unfold patch_fields;
        destruct (CollectionUpdate.name upd), (CollectionUpdate.description upd);
        reflexivity. }
  destruct U as (f & Hid & Hu & E). unfold updated in E.
  destruct (find (owned_collection cid u) (collections d)) as [c0|] eqn:F;
    [|discriminate E].
  apply find_some in F as [H0 F]. apply owned_collection_true in F as [E0 Eu].
  subst cid.
  simpl in E. rewrite (find_pk_after_update (collections d) _ f c0 Hid ND H0 eq_refl) in E.
  injection E as <- <-.
  assert (O : find (owned_collection (Collection.id c0) u)
                (update_where (fun x => Collection.id x =? Collection.id c0) f
                   (collections d)) = Some (f c0)).
  { rewrite find_update_where
      by (intros r; unfold owned_collection; now rewrite Hid, Hu).
    rewrite <- Eu, (find_owned_collection d c0 ND H0). simpl.
    now rewrite String.eqb_refl. }
  split.
  - unfold run. now rewrite (get_collection_found (open_session _) _ _ (f c0)).
  - eexists. split; [apply get_all_collections_run|].
    apply filter_In. split.
    + simpl. unfold update_where. apply in_map_iff. exists c0.
      now rewrite String.eqb_refl.
    + rewrite Hu. now apply String.eqb_eq.
Qed.

Lemma update_then_get_witness :
  run (get_collection "c1" "alice")
      (fst (run (update_collection_partial "c1" (CollectionUpdate.mk (Some "Job") None)
                   "alice") sample_db))
  = (fst (run (update_collection_partial "c1" (CollectionUpdate.mk (Some "Job") None)
                 "alice") sample_db),
     Returned (Collection.mk "c1" "alice" "Job" (Some "tasks") 10)).
Proof.
  refine (proj1 (update_then_get sample_db _ "c1" "alice" _ _ _)).
  - split; simpl; repeat constructor; simpl; intuition discriminate.
  - right. exists (CollectionUpdate.mk (Some "Job") None). reflexivity.
Defined.

(** ** Listing and fetching agree *)

(** X21. [get_all_collections] and [get_collection] agree: on a store with
    unique primary keys, a collection is in the caller's list exactly when
    [get_collection] on its id returns it to that caller. *)
Theorem list_all_agrees_with_get (d : Database) (u : Id) (c : Collection.t) :
  pk_unique d ->
  exists l,
    run (get_all_collections u) d = (d, Returned l)
    /\ (In c l <-> run (get_collection (Collection.id c) u) d = (d, Returned c)).
Proof.
  intros [ND _]. eexists. split; [apply get_all_collections_run|].
  rewrite filter_In, String.eqb_eq. split.
  - intros [Hc <-]. unfold run.
    rewrite (get_collection_found (open_session d) _ _ c); [reflexivity|].
    now apply find_owned_collection.
  - intros E. unfold run, get_collection in E. unfold_session.
    destruct (find (owned_collection (Collection.id c) u) (collections d)) as [c0|] eqn:F;
      simpl in E; [|discriminate E].
    injection E as ->. apply find_some in F as [Hc F].
    apply owned_collection_true in F as [_ F]. now split.
Qed.

Lemma list_all_agrees_with_get_witness :
  exists l,
    run (get_all_collections "alice") sample_db = (sample_db, Returned l)
    /\ (In (Collection.mk "c3" "alice" "Misc" None 12) l <->
        run (get_collection "c3" "alice") sample_db
        = (sample_db, Returned (Collection.mk "c3" "alice" "Misc" None 12))).
Proof.
  apply (list_all_agrees_with_get sample_db "alice"
           (Collection.mk "c3" "alice" "Misc" None 12)).
  split; simpl; repeat constructor; simpl; intuition discriminate.
Defined.

Lemma filter_delete_where_comm {R} (p q : R -> bool) (rows : list R) :
  filter p (delete_where q rows) = filter (fun r => negb (q r)) (filter p rows).
Proof.
  unfold delete_where. induction rows as [|z rows IH]; simpl; [reflexivity|].
  destruct (q z) eqn:Q, (p z) eqn:P; simpl; rewrite ?P, ?Q, ?IH; reflexivity.
Qed.

(** X22. A deletion shows in every list: after a successful
    [delete_collection], the list [get_all_collections] gives any user is the
    former list without the rows of the deleted id, the others in their
    former order. *)
Theorem delete_then_list_all (d d1 : Database) (cid u v : Id) (m : value) :
  run (delete_collection cid u) d = (d1, Returned m) ->
  exists l,
    run (get_all_collections v) d = (d, Returned l)
    /\ run (get_all_collections v) d1
       = (d1, Returned (filter (fun c => negb (Collection.id c =? cid)) l)).
Proof.
  intros E.
  destruct (find (owned_collection cid u) (collections d)) as [c0|] eqn:F.
  - rewrite (delete_collection_run d cid u c0 F) in E. injection E as <- _.
    eexists. split; [apply get_all_collections_run|].
    rewrite get_all_collections_run. simpl.
    now rewrite filter_delete_where_comm.
  - unfold delete_collection in E. unfold_session. rewrite F in E. discriminate E.
Qed.

Lemma delete_then_list_all_witness :
  exists l,
    run (get_all_collections "alice") sample_db = (sample_db, Returned l)
    /\ run (get_all_collections "alice")
           (fst (run (delete_collection "c1" "alice") sample_db))
       = (fst (run (delete_collection "c1" "alice") sample_db),
          Returned (filter (fun c => negb (Collection.id c =? "c1")) l)).
Proof.
  apply (delete_then_list_all sample_db _ "c1" "alice" "alice"
           (message "Collection deleted successfully")).
  reflexivity.
Defined.

(** X23. Linking changes one reference and nothing else.  After a
    successful [add_record_to_collection] the collection table and the share
    table are as before, and each row of the record table is in its place
    with the same id, owner, filename, content and creation time; its
    membership reference is the collection if the row has the record id and
    is what it was otherwise. *)
Theorem link_changes_only_membership (d d1 : Database) (cid rid u : Id) (m : value) :
  run (add_record_to_collection cid rid u) d = (d1, Returned m) ->
  m = message "Record added to collection successfully"
  /\ collections d1 = collections d /\ shares d1 = shares d
  /\ length (records d1) = length (records d)
  /\ forall i r, nth_error (records d) i = Some r ->
       nth_error (records d1) i
       = Some (Record.mk (Record.id r) (Record.user_id r) (Record.filename r)
                 (Record.content r)
                 (if Record.id r =? rid then Some cid else Record.collection_id r)
                 (Record.created_at r)).
Proof.
  rewrite add_record_run. unfold linked.
  destruct (find (owned_collection cid u) (collections d)); [|discriminate].
  destruct (find (owned_record rid u) (records d)); [|discriminate].
  intros E. injection E as <- <-. simpl. repeat split.
  - unfold update_where. apply length_map.
  - intros i r Hi. rewrite nth_error_update_where, Hi. simpl.
    destruct (Record.id r =? rid); [reflexivity|]. now destruct r.
Qed.

Lemma link_changes_only_membership_witness :
  message "Record added to collection successfully"
  = message "Record added to collection successfully"
  /\ collections (fst (run (add_record_to_collection "c3" "r4" "alice") sample_db))
     = collections sample_db
  /\ shares (fst (run (add_record_to_collection "c3" "r4" "alice") sample_db))
     = shares sample_db
  /\ length (records (fst (run (add_record_to_collection "c3" "r4" "alice") sample_db)))
     = length (records sample_db).
Proof.
  destruct (link_changes_only_membership sample_db _ "c3" "r4" "alice" _ eq_refl)
    as (A & B & C & D & _).
  repeat split; assumption.
Defined.
